(** * Slack MCP server: dispatcher, API gateway, two-phase upload, resilience harness

    A shallow embedding of the server's entry file (the one that defines
    [Logger], [SlackClient] and [main]).

    Conventions of the embedding.
    - A JavaScript value that can occur in a tool call or in a decoded
      response is a [value]: JSON extended with [undefined].  Numbers are
      integers ([Z]); the code only produces lengths and forwards counts.
    - A string is the sequence of its UTF-8 bytes, so [String.length] is
      the length of [Buffer.from(s, 'utf8')].
    - [async] code is sequential here: a computation is a function from the
      [world] (the outbound calls made and the log written so far) to an
      outcome, a returned value or a thrown exception, and the new world.
      One invocation is followed at a time; a promise that is created
      before it is awaited is a computation handed back by its creator.
    - An object is the list of its members in insertion order; the keys
      the code uses are identifiers.
    - What lives outside the repository (the network, the file system, the
      clock, [path.basename], the MIME table, ...) is a field of [Env]. *)

From Stdlib Require Import ZArith List String Ascii Bool Lia.
From Stdlib Require Import DecimalString.
Import ListNotations.
Open Scope string_scope.
Open Scope Z_scope.
Set Warnings "-register-all".

(* ------------------------------------------------------------------ *)
(** ** JavaScript values *)

Inductive value : Type :=
| JUndefined
| JNull
| JBool (b : bool)
| JNum (n : Z)
| JStr (s : string)
| JArr (elems : list value)
| JObj (fields : list (string * value)).

(** [!!v] *)
Definition truthy (v : value) : bool :=
  match v with
  | JUndefined | JNull => false
  | JBool b => b
  | JNum n => negb (n =? 0)
  | JStr s => negb (s =? "")%string
  | JArr _ | JObj _ => true
  end.

(** [!v] *)
Definition falsy (v : value) : bool := negb (truthy v).

(** [a || b] on values. *)
Definition js_or (a b : value) : value := if truthy a then a else b.

Fixpoint assoc (k : string) (fs : list (string * value)) : value :=
  match fs with
  | [] => JUndefined
  | (k', v) :: rest => if (k =? k')%string then v else assoc k rest
  end.

(** [o.k] for a value that is known not to be [null] or [undefined]:
    a missing property, or a property of a primitive, reads [undefined]. *)
Definition get (k : string) (o : value) : value :=
  match o with
  | JObj fs => assoc k fs
  | _ => JUndefined
  end.

(** [o.k = v] on an object: an existing property keeps its position. *)
Fixpoint set_field (k : string) (v : value) (fs : list (string * value))
  : list (string * value) :=
  match fs with
  | [] => [(k, v)]
  | (k', v') :: rest =>
      if (k =? k')%string then (k, v) :: rest else (k', v') :: set_field k v rest
  end.

Definition Z_to_string (n : Z) : string :=
  NilZero.string_of_int (Z.to_int n).

Fixpoint join (sep : string) (l : list string) : string :=
  match l with
  | [] => ""
  | [x] => x
  | x :: rest => x ++ sep ++ join sep rest
  end.

(** The abstract operation [ToString] (template literals, [String(v)],
    string concatenation, [URLSearchParams] and [FormData] values). *)
Fixpoint ToString (v : value) : string :=
  match v with
  | JUndefined => "undefined"
  | JNull => "null"
  | JBool true => "true"
  | JBool false => "false"
  | JNum n => Z_to_string n
  | JStr s => s
  | JArr l =>
      join "," ((fix elems (l : list value) : list string :=
                   match l with
                   | [] => []
                   | JUndefined :: r => "" :: elems r
                   | JNull :: r => "" :: elems r
                   | x :: r => ToString x :: elems r
                   end) l)
  | JObj _ => "[object Object]"
  end.

(* ------------------------------------------------------------------ *)
(** ** [JSON.stringify] *)

Definition hex_digit (n : nat) : ascii :=
  match n with
  | 0 => "0" | 1 => "1" | 2 => "2" | 3 => "3" | 4 => "4" | 5 => "5"
  | 6 => "6" | 7 => "7" | 8 => "8" | 9 => "9" | 10 => "a" | 11 => "b"
  | 12 => "c" | 13 => "d" | 14 => "e" | _ => "f"
  end%char%nat.

Definition dquote : ascii := ascii_of_nat 34.
Definition dq : string := String dquote EmptyString.

Definition escape_char (c : ascii) : string :=
  let n := nat_of_ascii c in
  if (n =? 34)%nat then "\" ++ dq else
  if (n =? 92)%nat then "\\" else
  if (n =? 8)%nat then "\b" else
  if (n =? 9)%nat then "\t" else
  if (n =? 10)%nat then "\n" else
  if (n =? 12)%nat then "\f" else
  if (n =? 13)%nat then "\r" else
  if (n <? 32)%nat then
    "\u00" ++ String (hex_digit (n / 16)) (String (hex_digit (n mod 16)) "")
  else String c "".

Fixpoint escape (s : string) : string :=
  match s with
  | EmptyString => ""
  | String c rest => escape_char c ++ escape rest
  end.

Definition quote (s : string) : string := dq ++ escape s ++ dq.

(** [None] is the result [undefined]: such a property is left out of an
    object and printed as [null] inside an array. *)
Fixpoint JSON_stringify (v : value) : option string :=
  match v with
  | JUndefined => None
  | JNull => Some "null"
  | JBool true => Some "true"
  | JBool false => Some "false"
  | JNum n => Some (Z_to_string n)
  | JStr s => Some (quote s)
  | JArr l =>
      Some ("[" ++ join ","
              ((fix elems (l : list value) : list string :=
                  match l with
                  | [] => []
                  | x :: r =>
                      match JSON_stringify x with
                      | Some t => t
                      | None => "null"
                      end :: elems r
                  end) l) ++ "]")
  | JObj fs =>
      Some ("{" ++ join ","
              ((fix members (fs : list (string * value)) : list string :=
                  match fs with
                  | [] => []
                  | (k, x) :: r =>
                      match JSON_stringify x with
                      | Some t => (quote k ++ ":" ++ t) :: members r
                      | None => members r
                      end
                  end) fs) ++ "}")
  end.


(* ------------------------------------------------------------------ *)
(** ** Exceptions, outbound calls, the log *)

Inductive exn : Type :=
| JsError (name message : string)   (* an instance of [Error] *)
| JsThrown (v : value).             (* any other thrown value *)

(** [error instanceof Error ? error.message : String(error)] *)
Definition exn_message (e : exn) : string :=
  match e with
  | JsError _ m => m
  | JsThrown v => ToString v
  end.

Inductive result (A : Type) : Type :=
| Ok (a : A)
| Throw (e : exn).
Arguments Ok {A} a.
Arguments Throw {A} e.

Inductive FetchBody : Type :=
| TextBody (text : string)
| FormDataBody (entries : list (string * string))
| BufferBody (bytes : string).

Record FetchRequest : Type := {
  req_url : string;
  req_method : string;
  req_headers : list (string * string);
  req_body : option FetchBody }.

(** What the code reads of a [Response]: [json] is the outcome of
    [response.json()], the decoded body or the exception it rejects with. *)
Record Response : Type := {
  status : Z;
  statusText : string;
  json : result value }.

(** [response.ok] *)
Definition Response_ok (r : Response) : bool :=
  (200 <=? status r) && (status r <=? 299).

Inductive FetchOutcome : Type :=
| Rejected (e : exn)
| Resolved (r : Response).

Record LogEntry : Type := { level : string; message : string }.

(** The observable history of one run: every call of [fetch], in order,
    and every line handed to [console.error] (its level and message; the
    timestamp, the colours and the pretty-printed data are left out). *)
Record world : Type := {
  fetched : list FetchRequest;
  logged : list LogEntry }.

Definition empty_world : world := {| fetched := []; logged := [] |}.

(** Everything the process reads from outside the repository. *)
Record Env : Type := {
  LOG_LEVEL : string;                     (* SLACK_MCP_LOG_LEVEL || 'info' *)
  SLACK_BOT_TOKEN : string;
  SLACK_USER_TOKEN : option string;
  SLACK_TEAM_ID : string;
  (** the remote side: the outcome of the n-th call of [fetch] *)
  net : nat -> FetchRequest -> FetchOutcome;
  (** [fs.readFile] *)
  readFile : value -> result string;
  (** [path.basename] *)
  basename : value -> result string;
  (** [lookup] of mime-types: a string, or [false] *)
  lookup : value -> value;
  (** [Buffer.from(v, 'utf8')] for a [v] that is not a string *)
  Buffer_from_other : value -> result string;
  (** [Date.now()], in milliseconds *)
  Date_now : Z;
  (** [String.prototype.trim] *)
  String_trim : string -> string;
  (** the numeric value of a string, [None] for [NaN] *)
  StringToNumber : string -> option Z }.

(* ------------------------------------------------------------------ *)
(** ** Computations *)

Definition M (A : Type) : Type := world -> result A * world.

Definition ret {A} (a : A) : M A := fun w => (Ok a, w).

Definition bind {A B} (m : M A) (k : A -> M B) : M B :=
  fun w =>
    match m w with
    | (Ok a, w') => k a w'
    | (Throw e, w') => (Throw e, w')
    end.

Definition throw {A} (e : exn) : M A := fun w => (Throw e, w).

(** [try { m } catch (error) { handler error }] *)
Definition try_catch {A} (m : M A) (handler : exn -> M A) : M A :=
  fun w =>
    match m w with
    | (Ok a, w') => (Ok a, w')
    | (Throw e, w') => handler e w'
    end.

Definition lift {A} (r : result A) : M A :=
  match r with
  | Ok a => ret a
  | Throw e => throw e
  end.

(** [throw new Error(message)] *)
Definition throw_Error {A} (message : string) : M A :=
  throw (JsError "Error" message).

Declare Scope js_scope.
Delimit Scope js_scope with js.
Notation "x <- m ;; k" := (bind m (fun x => k))
  (at level 61, m at next level, right associativity) : js_scope.
Notation "m ;;; k" := (bind m (fun _ => k))
  (at level 61, right associativity) : js_scope.
Open Scope js_scope.

(** A promise: calling an [async] function runs its body up to the first
    suspension and hands back what remains to be run when it is awaited.
    A body that throws before it suspends yields a rejected promise. *)
Definition Promise (A : Type) : Type := M A.

Definition async {A} (body : M (Promise A)) : M (Promise A) :=
  fun w =>
    match body w with
    | (Ok p, w') => (Ok p, w')
    | (Throw e, w') => (Ok (throw e), w')
    end.

Definition await {A} (call : M (Promise A)) : M A :=
  p <- call ;; p.

(* ------------------------------------------------------------------ *)
(** ** Logger and SlackClient *)

Fixpoint indexOf_from (i : Z) (x : string) (l : list string) : Z :=
  match l with
  | [] => -1
  | y :: rest => if (x =? y)%string then i else indexOf_from (i + 1) x rest
  end.

(** [l.indexOf(x)] *)
Definition indexOf (x : string) (l : list string) : Z := indexOf_from 0 x l.

Definition levels : list string := ["debug"; "info"; "warn"; "error"].

(** [console.error(this.formatMessage(label, message, data))] *)
Definition console_error (label message : string) : M unit :=
  fun w =>
    (Ok tt, {| fetched := fetched w;
               logged := logged w ++ [{| level := label; message := message |}] |}).

(** [o.k] where [o] may be [null] or [undefined] *)
Definition get_prop (k : string) (o : value) : M value :=
  match o with
  | JUndefined =>
      throw (JsError "TypeError"
               ("Cannot read properties of undefined (reading '" ++ k ++ "')"))
  | JNull =>
      throw (JsError "TypeError"
               ("Cannot read properties of null (reading '" ++ k ++ "')"))
  | _ => ret (get k o)
  end.

Record Headers : Type := {
  Authorization : string;
  Content_Type : option string }.

Definition header_list (h : Headers) : list (string * string) :=
  ("Authorization", Authorization h) ::
  match Content_Type h with
  | Some ct => [("Content-Type", ct)]
  | None => []
  end.

(** The body of a request made through [makeApiRequest]: the text
    [JSON.stringify(payload)] of an object literal, kept as the payload it
    prints, or a [FormData]. *)
Inductive ApiBody : Type :=
| JsonBody (payload : list (string * value))
| FormData (entries : list (string * string)).

Definition body_text (payload : list (string * value)) : string :=
  match JSON_stringify (JObj payload) with
  | Some text => text
  | None => EmptyString
  end.

Definition to_FetchBody (b : ApiBody) : FetchBody :=
  match b with
  | JsonBody payload => TextBody (body_text payload)
  | FormData entries => FormDataBody entries
  end.

Record RequestInit : Type := {
  method : option string;
  headers : option Headers;
  body : option ApiBody }.

Definition GET : RequestInit :=
  {| method := Some "GET"; headers := None; body := None |}.

Definition POST (payload : list (string * value)) : RequestInit :=
  {| method := Some "POST"; headers := None; body := Some (JsonBody payload) |}.

(** [JSON.parse(options.body as string)]: the text printed by
    [JSON.stringify] parses; a [FormData] is first converted to the string
    [[object FormData]], which does not (the message of the SyntaxError is
    the engine's, and varies with its version). *)
Definition JSON_parse_body (b : ApiBody) : M unit :=
  match b with
  | JsonBody _ => ret tt
  | FormData _ =>
      throw (JsError "SyntaxError" "Unexpected token o in JSON at position 1")
  end.

(** [new URLSearchParams(...)] and its [toString()] *)
Definition URLSearchParams : Type := list (string * string).

Definition HEX_digit (n : nat) : ascii :=
  match n with
  | 0 => "0" | 1 => "1" | 2 => "2" | 3 => "3" | 4 => "4" | 5 => "5"
  | 6 => "6" | 7 => "7" | 8 => "8" | 9 => "9" | 10 => "A" | 11 => "B"
  | 12 => "C" | 13 => "D" | 14 => "E" | _ => "F"
  end%char%nat.

Definition urlencode_byte (c : ascii) : string :=
  let n := nat_of_ascii c in
  if ((48 <=? n) && (n <=? 57) || (65 <=? n) && (n <=? 90)
      || (97 <=? n) && (n <=? 122)
      || (n =? 42) || (n =? 45) || (n =? 46) || (n =? 95))%nat
  then String c EmptyString
  else if (n =? 32)%nat then "+"
  else String "%"%char
         (String (HEX_digit (n / 16)) (String (HEX_digit (n mod 16)) EmptyString)).

Fixpoint urlencode (s : string) : string :=
  match s with
  | EmptyString => EmptyString
  | String c rest => urlencode_byte c ++ urlencode rest
  end.

Definition URLSearchParams_toString (params : URLSearchParams) : string :=
  join "&" (map (fun kv => urlencode (fst kv) ++ "=" ++ urlencode (snd kv)) params).

(** [params.append(k, v)] *)
Definition append (params : URLSearchParams) (k : string) (v : value)
  : URLSearchParams :=
  (params ++ [(k, ToString v)])%list.

(** [if (v) params.append(k, v.toString())]: every truthy value has a
    [toString] method, with the result of [ToString]. *)
Definition append_if (params : URLSearchParams) (k : string) (v : value)
  : URLSearchParams :=
  if truthy v then append params k v else params.

(** [v.toString()] *)
Definition toString (v : value) : M string :=
  match v with
  | JUndefined =>
      throw (JsError "TypeError"
               "Cannot read properties of undefined (reading 'toString')")
  | JNull =>
      throw (JsError "TypeError"
               "Cannot read properties of null (reading 'toString')")
  | _ => ret (ToString v)
  end.

(** [x: T = d] in a parameter list *)
Definition default (d v : value) : value :=
  match v with
  | JUndefined => d
  | _ => v
  end.

(** [l.join(sep)] for a receiver that need not be an array *)
Definition Array_join (recv : string) (v : value) : M string :=
  match v with
  | JArr _ => ret (ToString v)
  | JUndefined | JNull =>
      throw (JsError "TypeError"
               ("Cannot read properties of " ++ ToString v ++ " (reading 'join')"))
  | _ => throw (JsError "TypeError" (recv ++ ".join is not a function"))
  end.

Section Server.

Variable E : Env.

(** *** class Logger *)

Definition Logger_shouldLog (lvl : string) : bool :=
  indexOf lvl levels >=? indexOf (LOG_LEVEL E) levels.

Definition Logger_debug (message : string) : M unit :=
  if Logger_shouldLog "debug" then console_error "debug" message else ret tt.

Definition Logger_info (message : string) : M unit :=
  if Logger_shouldLog "info" then console_error "info" message else ret tt.

Definition Logger_warn (message : string) : M unit :=
  if Logger_shouldLog "warn" then console_error "warn" message else ret tt.

Definition Logger_error (message : string) : M unit :=
  if Logger_shouldLog "error" then console_error "error" message else ret tt.

Definition Logger_success (message : string) : M unit :=
  if Logger_shouldLog "info" then console_error "success" message else ret tt.

Definition Logger_apiRequest (method url : string) : M unit :=
  Logger_debug ("API Request: " ++ method ++ " " ++ url).

Definition Logger_apiResponse (method url : string) (status : Z) : M unit :=
  let message :=
    "API Response: " ++ method ++ " " ++ url ++ " - Status: " ++ Z_to_string status in
  if status >=? 400 then Logger_error message else Logger_debug message.

(** *** class SlackClient *)

Definition botHeaders : Headers :=
  {| Authorization := "Bearer " ++ SLACK_BOT_TOKEN E;
     Content_Type := Some "application/json;charset=utf-8" |}.

(** [`Bearer ${process.env.SLACK_USER_TOKEN}`]: an unset variable prints
    as [undefined]. *)
Definition user_Authorization : string :=
  "Bearer " ++ match SLACK_USER_TOKEN E with
               | Some token => token
               | None => "undefined"
               end.

Definition userHeaders : Headers :=
  {| Authorization := user_Authorization;
     Content_Type := Some "application/json;charset=utf-8" |}.

(** [fetch(url, init)]: the call is recorded when it is made; the promise
    settles with what the remote side answers to it. *)
Definition fetch (req : FetchRequest) : M (Promise Response) :=
  fun w =>
    let outcome := net E (List.length (fetched w)) req in
    (Ok (match outcome with
         | Rejected e => throw e
         | Resolved r => ret r
         end),
     {| fetched := fetched w ++ [req]; logged := logged w |}).

Definition makeApiRequest_async (url : string) (options : RequestInit)
    (useUserToken : bool) : M (Promise value) :=
  async (
    let method := match method options with
                  | Some m => if (m =? "")%string then "GET" else m
                  | None => "GET"
                  end in
    let own_headers := if useUserToken then userHeaders else botHeaders in
    match body options with
    | Some b => JSON_parse_body b
    | None => ret tt
    end ;;;
    Logger_apiRequest method url ;;;
    (* the try block starts here, at the call of fetch *)
    pending <- fetch {| req_url := url;
                        req_method := method;
                        req_headers := header_list
                                         match headers options with
                                         | Some h => h
                                         | None => own_headers
                                         end;
                        req_body := option_map to_FetchBody (body options) |} ;;
    ret (try_catch
           (response <- pending ;;
            responseBody <- lift (json response) ;;
            Logger_apiResponse method url (status response) ;;;
            ok <- get_prop "ok" responseBody ;;
            (if falsy ok
             then Logger_error ("Slack API error for " ++ method ++ " " ++ url)
             else ret tt) ;;;
            ret responseBody)
           (fun error =>
              Logger_error ("Network error for " ++ method ++ " " ++ url) ;;;
              throw error))).

Definition makeApiRequest (url : string) (options : RequestInit)
    (useUserToken : bool) : M value :=
  await (makeApiRequest_async url options useUserToken).


(** [ToNumber], [Math.min(v, n)] and the printing of its result *)
Definition ToNumber (v : value) : option Z :=
  match v with
  | JUndefined => None
  | JNull => Some 0
  | JBool b => Some (if b then 1 else 0)
  | JNum n => Some n
  | JStr s => StringToNumber E s
  | JArr _ | JObj _ => StringToNumber E (ToString v)
  end.

Definition Math_min (v : value) (n : Z) : option Z :=
  option_map (fun x => Z.min x n) (ToNumber v).

Definition Number_toString (n : option Z) : string :=
  match n with
  | Some x => Z_to_string x
  | None => "NaN"
  end.

Definition api (endpoint : string) : string :=
  "https://slack.com/api/" ++ endpoint.

Definition with_query (endpoint : string) (params : URLSearchParams) : string :=
  api endpoint ++ "?" ++ URLSearchParams_toString params.

Definition getChannels (limit cursor : value) : M value :=
  let limit := default (JNum 100) limit in
  Logger_debug "Getting channels" ;;;
  let params : URLSearchParams :=
    [("types", "public_channel,private_channel");
     ("exclude_archived", "true");
     ("limit", Number_toString (Math_min limit 200));
     ("team_id", SLACK_TEAM_ID E)] in
  let params := append_if params "cursor" cursor in
  makeApiRequest (with_query "conversations.list" params) GET false.

Definition postMessage (channel_id text : value) : M value :=
  get_prop "length" text ;;;
  Logger_debug "Posting message" ;;;
  makeApiRequest (api "chat.postMessage")
    (POST [("channel", channel_id); ("text", text)]) false.

Definition postReply (channel_id thread_ts text : value) : M value :=
  get_prop "length" text ;;;
  Logger_debug "Posting reply to thread" ;;;
  makeApiRequest (api "chat.postMessage")
    (POST [("channel", channel_id); ("thread_ts", thread_ts); ("text", text)])
    false.

Definition addReaction (channel_id timestamp reaction : value) : M value :=
  Logger_debug "Adding reaction" ;;;
  makeApiRequest (api "reactions.add")
    (POST [("channel", channel_id); ("timestamp", timestamp); ("name", reaction)])
    false.

Definition getChannelHistory (channel_id limit : value) : M value :=
  let limit := default (JNum 10) limit in
  Logger_debug "Getting channel history" ;;;
  limit_text <- toString limit ;;
  let params : URLSearchParams :=
    [("channel", ToString channel_id); ("limit", limit_text)] in
  makeApiRequest (with_query "conversations.history" params) GET false.

Definition getThreadReplies (channel_id thread_ts : value) : M value :=
  Logger_debug "Getting thread replies" ;;;
  let params : URLSearchParams :=
    [("channel", ToString channel_id); ("ts", ToString thread_ts)] in
  makeApiRequest (with_query "conversations.replies" params) GET false.

(** The request is started, [ret] is logged while it is in flight, and
    only then is the promise awaited by the caller. *)
Definition getUsers (limit cursor : value) : M value :=
  let limit := default (JNum 100) limit in
  Logger_debug "Getting users" ;;;
  let params : URLSearchParams :=
    [("limit", Number_toString (Math_min limit 200));
     ("team_id", SLACK_TEAM_ID E)] in
  let params := append_if params "cursor" cursor in
  promise <- makeApiRequest_async (with_query "users.list" params) GET false ;;
  Logger_debug "ret" ;;;
  promise.

Definition getUserProfile (user_id : value) : M value :=
  Logger_debug "Getting user profile" ;;;
  let params : URLSearchParams :=
    [("user", ToString user_id); ("include_labels", "true")] in
  makeApiRequest (with_query "users.profile.get" params) GET false.

Definition getUserByEmail (email : value) : M value :=
  Logger_debug "Looking up user by email" ;;;
  makeApiRequest (api "users.lookupByEmail?email=" ++ ToString email) GET false.

(** [if (v) payload.k = v] *)
Definition set_if (k : string) (v : value) (payload : list (string * value))
  : list (string * value) :=
  if truthy v then set_field k v payload else payload.

Definition createCanvas (title document_content channel_id : value) : M value :=
  Logger_debug "Creating canvas" ;;;
  let payload := set_if "title" title [] in
  let payload := set_if "document_content" document_content payload in
  let payload := set_if "channel_id" channel_id payload in
  makeApiRequest (api "canvases.create") (POST payload) false.

Definition editCanvas (canvas_id changes : value) : M value :=
  get_prop "length" changes ;;;
  Logger_debug "Editing canvas" ;;;
  let changeObj := [("canvas_id", canvas_id); ("changes", changes)] in
  Logger_debug "changeObj" ;;;
  makeApiRequest (api "canvases.edit") (POST changeObj) false.

Definition createChannelCanvas (channel_id document_content : value) : M value :=
  Logger_debug "Creating channel canvas" ;;;
  let payload := [("channel_id", channel_id)] in
  let payload := set_if "document_content" document_content payload in
  makeApiRequest (api "conversations.canvases.create") (POST payload) false.

Definition getCanvas (canvas_id : value) : M value :=
  Logger_debug "Getting canvas" ;;;
  let params : URLSearchParams := [("canvas_id", ToString canvas_id)] in
  let body :=
    [("canvas_id", canvas_id);
     ("criteria", JObj [("section_types", JArr [JStr "any_header"])])] in
  makeApiRequest (with_query "canvases.sections.lookup" params) (POST body) false.

Definition deleteCanvas (canvas_id : value) : M value :=
  Logger_debug "Deleting canvas" ;;;
  makeApiRequest (api "canvases.delete") (POST [("canvas_id", canvas_id)]) false.

Definition setCanvasAccess (canvas_id access_level channel_ids user_ids : value)
  : M value :=
  Logger_debug "Setting canvas access" ;;;
  let payload := [("canvas_id", canvas_id); ("access_level", access_level)] in
  let payload := set_if "channel_ids" channel_ids payload in
  let payload := set_if "user_ids" user_ids payload in
  makeApiRequest (api "canvases.access.set") (POST payload) false.

Definition is_undefined (v : value) : bool :=
  match v with
  | JUndefined => true
  | _ => false
  end.

(** The first character of a string, as a string (the first UTF-8
    sequence; a character outside the basic plane is kept whole). *)
Definition first_char (s : string) : string :=
  match s with
  | EmptyString => EmptyString
  | String c _ =>
      let n := nat_of_ascii c in
      substring 0 (if n <? 192 then 1 else if n <? 224 then 2
                   else if n <? 240 then 3 else 4)%nat s
  end.

(** [v?.[0]] *)
Definition first_element (v : value) : value :=
  match v with
  | JArr (x :: _) => x
  | JObj fs => assoc "0" fs
  | JStr (String c rest) => JStr (first_char (String c rest))
  | _ => JUndefined
  end.

(** [Buffer.from(v, 'utf8')] *)
Definition Buffer_from (v : value) : M string :=
  match v with
  | JStr s => ret s
  | _ => lift (Buffer_from_other E v)
  end.

(** [content.length] of a Buffer *)
Definition Buffer_length (content : string) : Z := Z.of_nat (String.length content).

Definition uploadFile (args : value) : M value :=
  Logger_debug "Uploading file" ;;;
  let formData : list (string * string) := [] in
  let formData := append_if formData "content" (get "content" args) in
  let formData := append_if formData "filename" (get "filename" args) in
  let formData := append_if formData "filetype" (get "filetype" args) in
  let formData := append_if formData "title" (get "title" args) in
  let formData := append_if formData "initial_comment" (get "initial_comment" args) in
  formData <- (if truthy (get "channels" args)
               then joined <- Array_join "args.channels" (get "channels" args) ;;
                    ret (append formData "channels" (JStr joined))
               else ret formData) ;;
  let formData := append_if formData "thread_ts" (get "thread_ts" args) in
  (* Note: This uses FormData, so we need to pass custom headers *)
  makeApiRequest (api "files.upload")
    {| method := Some "POST";
       headers := Some {| Authorization := user_Authorization;
                          Content_Type := None |};
       body := Some (FormData formData) |}
    true.

Definition listFiles (args : value) : M value :=
  Logger_debug "Listing files" ;;;
  let params : URLSearchParams := [] in
  let params := append_if params "channel" (get "channel" args) in
  let params := append_if params "user" (get "user" args) in
  let params := append_if params "types" (get "types" args) in
  let params := append_if params "ts_from" (get "from" args) in
  let params := append_if params "ts_to" (get "to" args) in
  let params := append_if params "count" (get "count" args) in
  let params := append_if params "page" (get "page" args) in
  makeApiRequest (with_query "files.list" params) GET false.

Definition getFileInfo (args : value) : M value :=
  Logger_debug "Getting file info" ;;;
  let params : URLSearchParams := [("file", ToString (get "file" args))] in
  let params := append_if params "page" (get "page" args) in
  let params := append_if params "count" (get "count" args) in
  makeApiRequest (with_query "files.info" params) GET false.

Definition deleteFile (args : value) : M value :=
  Logger_debug "Deleting file" ;;;
  makeApiRequest (api "files.delete")
    (POST [("file", get "file" args)])
    true.

Definition getUploadURLExternal (args : value) : M value :=
  Logger_debug "Getting upload URL" ;;;
  makeApiRequest (api "files.getUploadURLExternal")
    (POST [("filename", get "filename" args);
           ("length", get "length" args);
           ("alt_text", get "alt_txt" args)])
    true.

Definition completeUploadExternal (args : value) : M value :=
  Logger_debug "Completing upload" ;;;
  makeApiRequest (api "files.completeUploadExternal")
    (POST [("files", get "files" args);
           ("channel_id", get "channel_id" args);
           ("initial_comment", get "initial_comment" args);
           ("thread_ts", get "thread_ts" args)])
    true.

(** The three values the input resolution of [uploadFile_v2] leaves in
    [content], [filename] and [filetype]. *)
Record UploadInput : Type := {
  in_content : string;
  in_filename : value;
  in_filetype : value }.

Definition resolve_upload_input (args : value) : M UploadInput :=
  if truthy (get "file_path" args) then
    try_catch
      (content <- lift (readFile E (get "file_path" args)) ;;
       filename <- (if truthy (get "filename" args)
                    then ret (get "filename" args)
                    else base <- lift (basename E (get "file_path" args)) ;;
                         ret (JStr base)) ;;
       let filetype :=
         if falsy (get "filetype" args)
         then js_or (lookup E (get "file_path" args))
                    (JStr "application/octet-stream")
         else get "filetype" args in
       Logger_debug "Read file from filesystem" ;;;
       ret {| in_content := content;
              in_filename := filename;
              in_filetype := filetype |})
      (fun error =>
         Logger_error "Failed to read file" ;;;
         throw_Error ("Failed to read file at " ++ ToString (get "file_path" args)
                        ++ ": " ++ exn_message error))
  else if truthy (get "content" args) && truthy (get "filename" args) then
    content <- Buffer_from (get "content" args) ;;
    ret {| in_content := content;
           in_filename := get "filename" args;
           in_filetype := js_or (get "filetype" args) (JStr "text/plain") |}
  else
    throw_Error
      "Either file_path or both content and filename are required for file upload".

Definition uploadFile_v2 (args : value) : M value :=
  Logger_debug "Starting v2 file upload" ;;;
  input <- resolve_upload_input args ;;
  (* Step 1: Get upload URL *)
  uploadUrlResponse <-
    getUploadURLExternal
      (JObj [("filename", in_filename input);
             ("length", JNum (Buffer_length (in_content input)))]) ;;
  if falsy (get "ok" uploadUrlResponse) then
    Logger_error "Failed to get upload URL" ;;;
    ret uploadUrlResponse
  else
    let upload_url := get "upload_url" uploadUrlResponse in
    let file_id := get "file_id" uploadUrlResponse in
    (* Step 2: Upload file to the URL *)
    try_catch
      (uploadResponse <-
         await (fetch {| req_url := ToString upload_url;
                         req_method := "POST";
                         req_headers :=
                           [("Content-Type",
                             ToString (js_or (in_filetype input)
                                             (JStr "application/octet-stream")))];
                         req_body := Some (BufferBody (in_content input)) |}) ;;
       (if negb (Response_ok uploadResponse)
        then throw_Error ("Upload failed: " ++ statusText uploadResponse)
        else ret tt) ;;;
       (* Step 3: Complete the upload *)
       completeResponse <-
         completeUploadExternal
           (JObj [("files",
                   JArr [JObj [("id", file_id);
                               ("title", js_or (get "title" args) (in_filename input))]]);
                  ("channel_id", first_element (get "channels" args));
                  ("initial_comment", get "initial_comment" args);
                  ("thread_ts", get "thread_ts" args)]) ;;
       ret completeResponse)
      (fun error =>
         Logger_error "Error during file upload" ;;;
         throw error).

(** The query string shared by [searchMessages] and [searchFiles]. *)
Definition search_params (args : value) : M URLSearchParams :=
  let params : URLSearchParams := [("query", ToString (get "query" args))] in
  let params := append_if params "sort" (get "sort" args) in
  let params := append_if params "sort_dir" (get "sort_dir" args) in
  params <- (if negb (is_undefined (get "highlight" args))
             then text <- toString (get "highlight" args) ;;
                  ret (append params "highlight" (JStr text))
             else ret params) ;;
  let params := append_if params "count" (get "count" args) in
  let params := append_if params "page" (get "page" args) in
  ret params.

Definition searchMessages (args : value) : M value :=
  Logger_debug "Searching messages" ;;;
  params <- search_params args ;;
  makeApiRequest (with_query "search.messages" params) GET
    true (* useUserToken - search APIs require user tokens *).

Definition searchFiles (args : value) : M value :=
  Logger_debug "Searching files" ;;;
  params <- search_params args ;;
  makeApiRequest (with_query "search.files" params) GET
    true (* useUserToken - search APIs require user tokens *).

Definition addReminder (args : value) : M value :=
  Logger_debug "Adding reminder" ;;;
  makeApiRequest (api "reminders.add")
    (POST [("text", get "text" args);
           ("time", get "time" args);
           ("user", get "user" args)])
    true.

Definition listReminders (args : value) : M value :=
  Logger_debug "Listing reminders" ;;;
  let params : URLSearchParams := [] in
  let params := append_if params "user" (get "user" args) in
  makeApiRequest (with_query "reminders.list" params) GET true.

Definition deleteReminder (args : value) : M value :=
  Logger_debug "Deleting reminder" ;;;
  makeApiRequest (api "reminders.delete")
    (POST [("reminder", get "reminder" args)])
    true.

Definition createConversation (args : value) : M value :=
  Logger_debug "Creating conversation" ;;;
  makeApiRequest (api "conversations.create")
    (POST [("name", get "name" args);
           ("is_private", js_or (get "is_private" args) (JBool false));
           ("team_id", get "team_id" args)])
    false.

Definition archiveConversation (args : value) : M value :=
  Logger_debug "Archiving conversation" ;;;
  makeApiRequest (api "conversations.archive")
    (POST [("channel", get "channel" args)]) false.

Definition unarchiveConversation (args : value) : M value :=
  Logger_debug "Unarchiving conversation" ;;;
  makeApiRequest (api "conversations.unarchive")
    (POST [("channel", get "channel" args)]) false.

Definition inviteToConversation (args : value) : M value :=
  Logger_debug "Inviting to conversation" ;;;
  makeApiRequest (api "conversations.invite")
    (POST [("channel", get "channel" args); ("users", get "users" args)]) false.

Definition kickFromConversation (args : value) : M value :=
  Logger_debug "Kicking from conversation" ;;;
  makeApiRequest (api "conversations.kick")
    (POST [("channel", get "channel" args); ("user", get "user" args)]) false.

Definition renameConversation (args : value) : M value :=
  Logger_debug "Renaming conversation" ;;;
  makeApiRequest (api "conversations.rename")
    (POST [("channel", get "channel" args); ("name", get "name" args)]) false.

Definition setConversationPurpose (args : value) : M value :=
  Logger_debug "Setting conversation purpose" ;;;
  makeApiRequest (api "conversations.setPurpose")
    (POST [("channel", get "channel" args); ("purpose", get "purpose" args)])
    false.

Definition setConversationTopic (args : value) : M value :=
  Logger_debug "Setting conversation topic" ;;;
  makeApiRequest (api "conversations.setTopic")
    (POST [("channel", get "channel" args); ("topic", get "topic" args)]) false.

Definition joinConversation (args : value) : M value :=
  Logger_debug "Joining conversation" ;;;
  makeApiRequest (api "conversations.join")
    (POST [("channel", get "channel" args)]) false.

Definition leaveConversation (args : value) : M value :=
  Logger_debug "Leaving conversation" ;;;
  makeApiRequest (api "conversations.leave")
    (POST [("channel", get "channel" args)]) false.

Definition addPin (args : value) : M value :=
  Logger_debug "Adding pin" ;;;
  makeApiRequest (api "pins.add")
    (POST [("channel", get "channel" args); ("timestamp", get "timestamp" args)])
    false.

Definition removePin (args : value) : M value :=
  Logger_debug "Removing pin" ;;;
  makeApiRequest (api "pins.remove")
    (POST [("channel", get "channel" args); ("timestamp", get "timestamp" args)])
    false.

Definition listPins (args : value) : M value :=
  Logger_debug "Listing pins" ;;;
  let params : URLSearchParams := [("channel", ToString (get "channel" args))] in
  makeApiRequest (with_query "pins.list" params) GET false.

Definition removeReaction (args : value) : M value :=
  Logger_debug "Removing reaction" ;;;
  makeApiRequest (api "reactions.remove")
    (POST [("channel", get "channel" args);
           ("timestamp", get "timestamp" args);
           ("name", get "name" args)])
    false.

Definition getReactions (args : value) : M value :=
  Logger_debug "Getting reactions" ;;;
  let params : URLSearchParams :=
    [("channel", ToString (get "channel" args));
     ("timestamp", ToString (get "timestamp" args))] in
  let params := if truthy (get "full" args)
                then append params "full" (JStr "true") else params in
  makeApiRequest (with_query "reactions.get" params) GET false.

Definition listReactions (args : value) : M value :=
  Logger_debug "Listing reactions" ;;;
  let params : URLSearchParams := [] in
  let params := append_if params "count" (get "count" args) in
  let params := append_if params "page" (get "page" args) in
  let params := if truthy (get "full" args)
                then append params "full" (JStr "true") else params in
  makeApiRequest (with_query "reactions.list" params) GET false.

Definition openView (args : value) : M value :=
  get_prop "type" (get "view" args) ;;;
  Logger_debug "Opening view" ;;;
  makeApiRequest (api "views.open")
    (POST [("trigger_id", get "trigger_id" args); ("view", get "view" args)])
    false.

Definition updateView (args : value) : M value :=
  get_prop "type" (get "view" args) ;;;
  Logger_debug "Updating view" ;;;
  makeApiRequest (api "views.update")
    (POST [("view_id", get "view_id" args);
           ("view", get "view" args);
           ("hash", get "hash" args)])
    false.

Definition pushView (args : value) : M value :=
  get_prop "type" (get "view" args) ;;;
  Logger_debug "Pushing view" ;;;
  makeApiRequest (api "views.push")
    (POST [("trigger_id", get "trigger_id" args); ("view", get "view" args)])
    false.

(** *** The CallToolRequest handler of [main] *)

Record ContentPart : Type := {
  type : string;
  text : option string }.   (* [None]: [JSON.stringify] gave [undefined] *)

Record ToolResult : Type := { content : list ContentPart }.

Record CallToolRequest : Type := {
  name : string;
  arguments : value }.      (* [JUndefined] when the request has none *)

(** [{ content: [{ type: "text", text: JSON.stringify(response) }] }] *)
Definition text_result (response : value) : ToolResult :=
  {| content := [{| type := "text"; text := JSON_stringify response |}] |}.

(** [if (cond) throw new Error(message)] *)
Definition throw_if (cond : bool) (message : string) : M unit :=
  if cond then throw_Error message else ret tt.

(** [v === undefined || v === null] *)
Definition nullish (v : value) : bool :=
  match v with
  | JUndefined | JNull => true
  | _ => false
  end.

(** [!Array.isArray(v) || v.length === 0], for a truthy [v] *)
Definition not_nonempty_array (v : value) : bool :=
  match v with
  | JArr (_ :: _) => false
  | _ => true
  end.

(** [v === s] for a string literal [s] *)
Definition is_string (s : string) (v : value) : bool :=
  match v with
  | JStr t => (t =? s)%string
  | _ => false
  end.

(** [response.hint = text] *)
Definition set_hint (hint : string) (response : value) : value :=
  match response with
  | JObj fs => JObj (set_field "hint" (JStr hint) fs)
  | _ => response
  end.

Definition reminders_add_case (args : value) : M ToolResult :=
  throw_if (falsy (get "text" args) || nullish (get "time" args))
    "Missing required arguments: text and time" ;;;
  (* Validate time format *)
  throw_if (match get "time" args with
            | JStr t => (String_trim E t =? EmptyString)%string
            | _ => false
            end)
    "Time cannot be an empty string" ;;;
  (match get "time" args with
   | JNum t => if t * 1000 <? Date_now E
               then Logger_warn "Reminder time appears to be in the past"
               else ret tt
   | _ => ret tt
   end) ;;;
  response <- addReminder args ;;
  response <-
    (if falsy (get "ok" response) then
       Logger_error "Failed to add reminder" ;;;
       (* Provide helpful error messages *)
       ret (if is_string "invalid_time" (get "error" response) then
              set_hint "Time format not recognized. Try 'tomorrow at 3pm' or a Unix timestamp"
                response
            else if is_string "cannot_parse" (get "error" response) then
              set_hint "Could not parse the time. Use natural language like 'in 2 hours' or 'next Monday at 9am'"
                response
            else if is_string "time_in_past" (get "error" response) then
              set_hint "The specified time is in the past" response
            else response)
     else ret response) ;;
  ret (text_result response).

(** A case that checks its arguments and forwards them to one method. *)
Definition simple_case (missing : value -> bool) (message : string)
    (call : value -> M value) (args : value) : M ToolResult :=
  throw_if (missing args) message ;;;
  response <- call args ;;
  ret (text_result response).

Definition no_check (args : value) : bool := false.

Definition lacks1 (a : string) (args : value) : bool := falsy (get a args).

Definition lacks2 (a b : string) (args : value) : bool :=
  falsy (get a args) || falsy (get b args).

Definition lacks3 (a b c : string) (args : value) : bool :=
  falsy (get a args) || falsy (get b args) || falsy (get c args).

(** The [switch (request.params.name)]: its labelled cases, in order.
    The labels are distinct string literals, so the case taken is the
    first (and only) one whose label equals the name. *)
Definition cases : list (string * (value -> M ToolResult)) :=
  [ ("slack_list_channels",
      simple_case no_check EmptyString
        (fun args => getChannels (get "limit" args) (get "cursor" args)));
    ("slack_post_message",
      simple_case (lacks2 "channel_id" "text")
        "Missing required arguments: channel_id and text"
        (fun args => postMessage (get "channel_id" args) (get "text" args)));
    ("slack_reply_to_thread",
      simple_case (lacks3 "channel_id" "thread_ts" "text")
        "Missing required arguments: channel_id, thread_ts, and text"
        (fun args => postReply (get "channel_id" args) (get "thread_ts" args)
                       (get "text" args)));
    ("slack_add_reaction",
      simple_case (lacks3 "channel_id" "timestamp" "reaction")
        "Missing required arguments: channel_id, timestamp, and reaction"
        (fun args => addReaction (get "channel_id" args) (get "timestamp" args)
                       (get "reaction" args)));
    ("slack_get_channel_history",
      simple_case (lacks1 "channel_id") "Missing required argument: channel_id"
        (fun args => getChannelHistory (get "channel_id" args) (get "limit" args)));
    ("slack_get_thread_replies",
      simple_case (lacks2 "channel_id" "thread_ts")
        "Missing required arguments: channel_id and thread_ts"
        (fun args => getThreadReplies (get "channel_id" args) (get "thread_ts" args)));
    ("slack_get_users",
      simple_case no_check EmptyString
        (fun args => getUsers (get "limit" args) (get "cursor" args)));
    ("slack_get_user_profile",
      simple_case (lacks1 "user_id") "Missing required argument: user_id"
        (fun args => getUserProfile (get "user_id" args)));
    ("slack_user_email",
      simple_case (lacks1 "email") "Missing required argument: email"
        (fun args => getUserByEmail (get "email" args)));
    (* Canvas API handlers *)
    ("slack_canvas_create",
      simple_case no_check EmptyString
        (fun args => createCanvas (get "title" args) (get "document_content" args)
                       (get "channel_id" args)));
    ("slack_canvas_edit",
      simple_case (lacks2 "canvas_id" "changes")
        "Missing required arguments: canvas_id and changes"
        (fun args => editCanvas (get "canvas_id" args) (get "changes" args)));
    ("slack_channel_canvas_create",
      simple_case (lacks1 "channel_id") "Missing required argument: channel_id"
        (fun args => createChannelCanvas (get "channel_id" args)
                       (get "document_content" args)));
    ("slack_canvas_get",
      simple_case (lacks1 "canvas_id") "Missing required argument: canvas_id"
        (fun args => getCanvas (get "canvas_id" args)));
    ("slack_canvas_delete",
      simple_case (lacks1 "canvas_id") "Missing required argument: canvas_id"
        (fun args => deleteCanvas (get "canvas_id" args)));
    ("slack_canvas_access_set",
      fun args =>
        throw_if (lacks2 "canvas_id" "access_level" args)
          "Missing required arguments: canvas_id and access_level" ;;;
        throw_if (truthy (get "channel_ids" args) && truthy (get "user_ids" args))
          "Cannot specify both channel_ids and user_ids" ;;;
        response <- setCanvasAccess (get "canvas_id" args) (get "access_level" args)
                      (get "channel_ids" args) (get "user_ids" args) ;;
        ret (text_result response));
    (* Files API handlers *)
    ("slack_files_upload",
      simple_case (lacks2 "content" "filename")
        "Missing required arguments: content and filename" uploadFile);
    ("slack_files_list", simple_case no_check EmptyString listFiles);
    ("slack_files_info",
      simple_case (lacks1 "file") "Missing required argument: file" getFileInfo);
    ("slack_files_delete",
      simple_case (lacks1 "file") "Missing required argument: file" deleteFile);
    (* New Files API v2 handlers *)
    ("slack_files_getUploadURLExternal",
      simple_case
        (fun args => falsy (get "filename" args) || nullish (get "length" args))
        "Missing required arguments: filename and length" getUploadURLExternal);
    ("slack_files_completeUploadExternal",
      simple_case
        (fun args => falsy (get "files" args) || not_nonempty_array (get "files" args))
        "Missing required argument: files (must be a non-empty array)"
        completeUploadExternal);
    ("slack_files_upload_v2",
      simple_case
        (fun args => falsy (get "file_path" args)
                     && (falsy (get "content" args) || falsy (get "filename" args)))
        "Missing required arguments: either file_path OR both content and filename"
        uploadFile_v2);
    (* Search API handlers *)
    ("slack_search_messages",
      simple_case (lacks1 "query") "Missing required argument: query" searchMessages);
    ("slack_search_files",
      simple_case (lacks1 "query") "Missing required argument: query" searchFiles);
    (* Reminder API handlers *)
    ("slack_reminders_add", reminders_add_case);
    ("slack_reminders_list", simple_case no_check EmptyString listReminders);
    ("slack_reminders_delete",
      simple_case (lacks1 "reminder") "Missing required argument: reminder"
        deleteReminder);
    (* Channel/Conversation Management handlers *)
    ("slack_conversation_create",
      simple_case (lacks1 "name") "Missing required argument: name"
        createConversation);
    ("slack_conversation_archive",
      simple_case (lacks1 "channel") "Missing required argument: channel"
        archiveConversation);
    ("slack_conversation_unarchive",
      simple_case (lacks1 "channel") "Missing required argument: channel"
        unarchiveConversation);
    ("slack_conversation_invite",
      simple_case (lacks2 "channel" "users")
        "Missing required arguments: channel and users" inviteToConversation);
    ("slack_conversation_kick",
      simple_case (lacks2 "channel" "user")
        "Missing required arguments: channel and user" kickFromConversation);
    ("slack_conversation_rename",
      simple_case (lacks2 "channel" "name")
        "Missing required arguments: channel and name" renameConversation);
    ("slack_conversation_set_purpose",
      simple_case (lacks2 "channel" "purpose")
        "Missing required arguments: channel and purpose" setConversationPurpose);
    ("slack_conversation_set_topic",
      simple_case (lacks2 "channel" "topic")
        "Missing required arguments: channel and topic" setConversationTopic);
    ("slack_conversation_join",
      simple_case (lacks1 "channel") "Missing required argument: channel"
        joinConversation);
    ("slack_conversation_leave",
      simple_case (lacks1 "channel") "Missing required argument: channel"
        leaveConversation);
    (* Pins API handlers *)
    ("slack_pins_add",
      simple_case (lacks2 "channel" "timestamp")
        "Missing required arguments: channel and timestamp" addPin);
    ("slack_pins_remove",
      simple_case (lacks2 "channel" "timestamp")
        "Missing required arguments: channel and timestamp" removePin);
    ("slack_pins_list",
      simple_case (lacks1 "channel") "Missing required argument: channel" listPins);
    (* Additional Reactions API handlers *)
    ("slack_reactions_remove",
      simple_case (lacks3 "channel" "timestamp" "name")
        "Missing required arguments: channel, timestamp, and name" removeReaction);
    ("slack_reactions_get",
      simple_case (lacks2 "channel" "timestamp")
        "Missing required arguments: channel and timestamp" getReactions);
    ("slack_reactions_list", simple_case no_check EmptyString listReactions);
    (* Views API handlers *)
    ("slack_views_open",
      simple_case (lacks2 "trigger_id" "view")
        "Missing required arguments: trigger_id and view" openView);
    ("slack_views_update",
      simple_case (lacks2 "view_id" "view")
        "Missing required arguments: view_id and view" updateView);
    ("slack_views_push",
      simple_case (lacks2 "trigger_id" "view")
        "Missing required arguments: trigger_id and view" pushView) ].

Fixpoint find_case (label : string) (cs : list (string * (value -> M ToolResult)))
  : option (value -> M ToolResult) :=
  match cs with
  | [] => None
  | (l, body) :: rest => if (label =? l)%string then Some body else find_case label rest
  end.

(** The body of the [try] block. *)
Definition call_tool (request : CallToolRequest) : M ToolResult :=
  throw_if (falsy (arguments request)) "No arguments provided" ;;;
  match find_case (name request) cases with
  | Some body => body (arguments request)
  | None => throw_Error ("Unknown tool: " ++ name request)
  end.

Definition debug_hint : string :=
  "Enable debug mode with SLACK_MCP_LOG_LEVEL=debug for more details".

(** The object the [catch] block serializes. *)
Definition error_payload (error : exn) (tool : string) : value :=
  JObj [("error", JStr (exn_message error));
        ("tool", JStr tool);
        ("hint", JStr debug_hint)].

Definition CallToolRequest_handler (request : CallToolRequest) : M ToolResult :=
  Logger_info ("Tool called: " ++ name request) ;;;
  Logger_debug "Tool request details" ;;;
  try_catch
    (call_tool request)
    (fun error =>
       Logger_error ("Error executing tool " ++ name request ++ ":") ;;;
       ret (text_result (error_payload error (name request)))).

End Server.

(** The names of the ToolDescriptors returned for a ListTools request,
    in the order of the list. *)
Definition tool_names : list string :=
  [ "slack_list_channels"; "slack_post_message"; "slack_reply_to_thread";
    "slack_add_reaction"; "slack_get_channel_history"; "slack_get_thread_replies";
    "slack_get_users"; "slack_get_user_profile"; "slack_user_email";
    "slack_canvas_create"; "slack_canvas_edit"; "slack_channel_canvas_create";
    "slack_canvas_get"; "slack_canvas_delete"; "slack_canvas_access_set";
    "slack_files_upload"; "slack_files_list"; "slack_files_info";
    "slack_files_delete"; "slack_files_getUploadURLExternal";
    "slack_files_completeUploadExternal"; "slack_files_upload_v2";
    "slack_search_messages"; "slack_search_files";
    "slack_reminders_add"; "slack_reminders_list"; "slack_reminders_delete";
    "slack_conversation_create"; "slack_conversation_archive";
    "slack_conversation_unarchive"; "slack_conversation_invite";
    "slack_conversation_kick"; "slack_conversation_rename";
    "slack_conversation_set_purpose"; "slack_conversation_set_topic";
    "slack_conversation_join"; "slack_conversation_leave";
    "slack_pins_add"; "slack_pins_remove"; "slack_pins_list";
    "slack_reactions_remove"; "slack_reactions_get"; "slack_reactions_list";
    "slack_views_open"; "slack_views_update"; "slack_views_push" ].

(* ------------------------------------------------------------------ *)
(** ** The global error handlers of [main] *)

Definition MAX_ERROR_COUNT : Z := 10.
Definition ERROR_RESET_INTERVAL : Z := 60000. (* Reset error count every minute *)

(** The process as the handlers see it: running with the current value of
    [errorCount], or gone through [process.exit(code)]. *)
Inductive process : Type :=
| Running (errorCount : Z)
| Exited (code : Z).

Inductive event : Type :=
| uncaughtException
| unhandledRejection
| errorResetInterval            (* the interval timer fires *)
| SIGINT
| SIGTERM.

Section Handlers.

Variable E : Env.

Definition too_many_errors (errorCount : Z) : M process :=
  (* If too many errors, exit to prevent infinite error loop *)
  if errorCount >=? MAX_ERROR_COUNT then
    Logger_error E ("Too many errors (" ++ Z_to_string errorCount
                      ++ "), shutting down to prevent system instability") ;;;
    ret (Exited 1)
  else ret (Running errorCount).

Definition on_uncaughtException (errorCount : Z) : M process :=
  let errorCount := errorCount + 1 in
  Logger_error E "Uncaught Exception (server continues):" ;;;
  Logger_warn E ("Server is continuing despite uncaught exception. Error count: "
                   ++ Z_to_string errorCount ++ "/" ++ Z_to_string MAX_ERROR_COUNT) ;;;
  too_many_errors errorCount.

Definition on_unhandledRejection (errorCount : Z) : M process :=
  let errorCount := errorCount + 1 in
  Logger_error E "Unhandled Rejection (server continues):" ;;;
  Logger_warn E ("Server is continuing despite unhandled rejection. Error count: "
                   ++ Z_to_string errorCount ++ "/" ++ Z_to_string MAX_ERROR_COUNT) ;;;
  too_many_errors errorCount.

Definition on_errorResetInterval (errorCount : Z) : M process :=
  if errorCount >? 0 then
    Logger_info E ("Resetting error count from " ++ Z_to_string errorCount ++ " to 0") ;;;
    ret (Running 0)
  else ret (Running errorCount).

Definition shutdown (signal : string) : M process :=
  Logger_info E ("Received " ++ signal ++ ", shutting down gracefully...") ;;;
  (* clearInterval(errorResetInterval) *)
  ret (Exited 0).

(** One callback run by the event loop; an exited process runs none. *)
Definition handle (p : process) (ev : event) : M process :=
  match p with
  | Exited code => ret (Exited code)
  | Running errorCount =>
      match ev with
      | uncaughtException => on_uncaughtException errorCount
      | unhandledRejection => on_unhandledRejection errorCount
      | errorResetInterval => on_errorResetInterval errorCount
      | SIGINT => shutdown "SIGINT"
      | SIGTERM => shutdown "SIGTERM"
      end
  end.

Fixpoint run (p : process) (evs : list event) : M process :=
  match evs with
  | [] => ret p
  | ev :: rest => p' <- handle p ev ;; run p' rest
  end.

End Handlers.

(** [setInterval(callback, ERROR_RESET_INTERVAL)]: with the timer set at
    time 0, it has fired [t / ERROR_RESET_INTERVAL] times by time [t]
    (milliseconds).  [timeline t0 faults] is the sequence of callbacks for
    faults arriving at the given times, in order, after time [t0]. *)
Definition fired_between (t0 t1 : Z) : nat :=
  Z.to_nat (t1 / ERROR_RESET_INTERVAL - t0 / ERROR_RESET_INTERVAL).

Fixpoint timeline (t0 : Z) (faults : list (Z * event)) : list event :=
  match faults with
  | [] => []
  | (t, ev) :: rest =>
      (repeat errorResetInterval (fired_between t0 t) ++ ev :: timeline t rest)%list
  end.

(* ------------------------------------------------------------------ *)
(** ** A concrete environment, for running the model *)

Definition ascii_is_space (c : ascii) : bool :=
  let n := nat_of_ascii c in
  ((n =? 32) || (9 <=? n) && (n <=? 13))%nat.

Fixpoint trim_left (s : string) : string :=
  match s with
  | String c rest => if ascii_is_space c then trim_left rest else s
  | EmptyString => EmptyString
  end.

Fixpoint rev_string (acc s : string) : string :=
  match s with
  | EmptyString => acc
  | String c rest => rev_string (String c acc) rest
  end.

Definition ascii_trim (s : string) : string :=
  rev_string EmptyString (trim_left (rev_string EmptyString (trim_left s))).

(** The last component of a POSIX path without trailing slash. *)
Fixpoint last_component (acc s : string) : string :=
  match s with
  | EmptyString => acc
  | String c rest =>
      if (nat_of_ascii c =? 47)%nat then last_component EmptyString rest
      else last_component (acc ++ String c EmptyString) rest
  end.

Definition fetch_failed : FetchOutcome :=
  Rejected (JsError "TypeError" "fetch failed").

(** An environment whose remote side answers the calls of [fetch] from a
    script, in order, and whose file system holds one file. *)
Definition scripted (script : list FetchOutcome) : Env :=
  {| LOG_LEVEL := "info";
     SLACK_BOT_TOKEN := "xoxb-bot";
     SLACK_USER_TOKEN := Some "xoxp-user";
     SLACK_TEAM_ID := "T0001";
     net := fun n _ => nth n script fetch_failed;
     readFile := fun path =>
       if is_string "/tmp/report.pdf" path then Ok "%PDF-1.4"
       else Throw (JsError "Error" "ENOENT: no such file or directory");
     basename := fun path =>
       match path with
       | JStr s => Ok (last_component EmptyString s)
       | _ => Throw (JsError "TypeError" "The path argument must be of type string")
       end;
     lookup := fun path =>
       if is_string "/tmp/report.pdf" path then JStr "application/pdf"
       else JBool false;
     Buffer_from_other := fun _ =>
       Throw (JsError "TypeError" "The first argument must be of type string");
     Date_now := 1700000000000;
     String_trim := ascii_trim;
     StringToNumber := fun _ => None |}.

Definition json_response (body : value) : FetchOutcome :=
  Resolved {| status := 200; statusText := "OK"; json := Ok body |}.

Definition http_response (status : Z) (statusText : string) : FetchOutcome :=
  Resolved {| status := status; statusText := statusText;
              json := Throw (JsError "SyntaxError" "Unexpected end of JSON input") |}.

(* ------------------------------------------------------------------ *)
(** ** Vocabulary of the statements *)

(** The request [makeApiRequest] hands to [fetch]. *)
Definition api_request (E : Env) (url : string) (options : RequestInit)
    (useUserToken : bool) : FetchRequest :=
  {| req_url := url;
     req_method := match method options with
                   | Some m => if (m =? "")%string then "GET" else m
                   | None => "GET"
                   end;
     req_headers := header_list
                      match headers options with
                      | Some h => h
                      | None => if useUserToken then userHeaders E else botHeaders E
                      end;
     req_body := option_map to_FetchBody (body options) |}.

(** What [makeApiRequest] makes of the answer to its request. *)
Definition api_outcome (answer : FetchOutcome) : result value :=
  match answer with
  | Rejected e => Throw e
  | Resolved r =>
      match json r with
      | Throw e => Throw e
      | Ok JUndefined =>
          Throw (JsError "TypeError" "Cannot read properties of undefined (reading 'ok')")
      | Ok JNull =>
          Throw (JsError "TypeError" "Cannot read properties of null (reading 'ok')")
      | Ok responseBody => Ok responseBody
      end
  end.

(** The three outbound calls of the two-phase upload. *)
Definition reserve_request (E : Env) (input : UploadInput) : FetchRequest :=
  api_request E (api "files.getUploadURLExternal")
    (POST [("filename", in_filename input);
           ("length", JNum (Buffer_length (in_content input)));
           ("alt_text", JUndefined)])
    true.

Definition transfer_request (input : UploadInput) (reserved : value) : FetchRequest :=
  {| req_url := ToString (get "upload_url" reserved);
     req_method := "POST";
     req_headers :=
       [("Content-Type",
         ToString (js_or (in_filetype input) (JStr "application/octet-stream")))];
     req_body := Some (BufferBody (in_content input)) |}.

(** The value of a request header. *)
Fixpoint header (h : string) (hs : list (string * string)) : option string :=
  match hs with
  | [] => None
  | (k, v) :: rest => if (h =? k)%string then Some v else header h rest
  end.

(** The calls of [fetch] a computation adds when run from [w]. *)
Definition calls_made {A} (m : M A) (w : world) : list FetchRequest :=
  skipn (List.length (fetched w)) (fetched (snd (m w))).

(** The client methods behind the tools that need the user token: file
    deletion, reminders, search, and the two API calls of the v2 upload. *)
Definition elevated_methods : list (Env -> value -> M value) :=
  [ deleteFile; addReminder; listReminders; deleteReminder;
    searchMessages; searchFiles; getUploadURLExternal; completeUploadExternal ].

(** The tools served by those methods alone. *)
Definition elevated_tools : list string :=
  [ "slack_files_delete"; "slack_reminders_add"; "slack_reminders_list";
    "slack_reminders_delete"; "slack_search_messages"; "slack_search_files";
    "slack_files_getUploadURLExternal"; "slack_files_completeUploadExternal" ].

(** The Authorization header of a request is the user's. *)
Definition user_authorized (E : Env) (req : FetchRequest) : Prop :=
  header "Authorization" (req_headers req) = Some (user_Authorization E).

(** A request carries no Authorization header but the user's. *)
Definition user_authorized_if_any (E : Env) (req : FetchRequest) : Prop :=
  forall a, header "Authorization" (req_headers req) = Some a ->
            a = user_Authorization E.

(** [m], started after [n] calls of [fetch], ends with [r] and has made
    the calls [new]; the log is left unconstrained. *)
Definition Runs {A} (m : M A) (n : nat) (r : result A) (new : list FetchRequest)
  : Prop :=
  forall w, List.length (fetched w) = n ->
    exists w', m w = (r, w') /\ fetched w' = (fetched w ++ new)%list.

(** Every call [m] makes satisfies [P], whatever else happens. *)
Definition Emits {A} (P : FetchRequest -> Prop) (m : M A) : Prop :=
  forall w, exists new,
    fetched (snd (m w)) = (fetched w ++ new)%list /\ Forall P new.

(** The handlers without their log lines. *)
Definition next (p : process) (ev : event) : process :=
  match p with
  | Exited code => Exited code
  | Running errorCount =>
      match ev with
      | uncaughtException | unhandledRejection =>
          if errorCount + 1 >=? MAX_ERROR_COUNT then Exited 1
          else Running (errorCount + 1)
      | errorResetInterval =>
          if errorCount >? 0 then Running 0 else Running errorCount
      | SIGINT | SIGTERM => Exited 0
      end
  end.

Definition is_fault (ev : event) : bool :=
  match ev with
  | uncaughtException | unhandledRejection => true
  | _ => false
  end.
(** The finalize call of an upload whose arguments name the channels
    [c0 :: others]. *)
Definition finalize_to (E : Env) (c0 : value) (args : value) (input : UploadInput)
    (reserved : value) : FetchRequest :=
  api_request E (api "files.completeUploadExternal")
    (POST [("files",
            JArr [JObj [("id", get "file_id" reserved);
                        ("title", js_or (get "title" args) (in_filename input))]]);
           ("channel_id", c0);
           ("initial_comment", get "initial_comment" args);
           ("thread_ts", get "thread_ts" args)])
    true.

(** The world once the two entry lines of the handler are logged. *)
Definition entry_logged (E : Env) (request : CallToolRequest) (w : world) : world :=
  snd ((Logger_info E ("Tool called: " ++ name request) ;;;
        Logger_debug E "Tool request details") w).

(** What the handler makes of the outcome of its [try] block. *)
Definition handled (request : CallToolRequest) (r : result ToolResult)
  : result ToolResult :=
  match r with
  | Ok res => Ok res
  | Throw error => Ok (text_result (error_payload error (name request)))
  end.

(** [m], started after [n] calls, makes the calls [l] before any other. *)
Definition Sends_first {A} (m : M A) (n : nat) (l : list FetchRequest) : Prop :=
  forall w, List.length (fetched w) = n ->
    exists later, fetched (snd (m w)) = (fetched w ++ l ++ later)%list.

(** The content type the upload settles on for a file read from a path. *)
Definition path_filetype (E : Env) (args : value) : value :=
  if truthy (get "filetype" args) then get "filetype" args
  else js_or (lookup E (get "file_path" args)) (JStr "application/octet-stream").

(** Sample arguments and answers. *)
Definition failed_reserve : value :=
  JObj [("ok", JBool false); ("error", JStr "not_authed")].

Definition hello_upload : value :=
  JObj [("content", JStr "Hello, world!"); ("filename", JStr "test.txt")].

Definition hello_input : UploadInput :=
  {| in_content := "Hello, world!";
     in_filename := JStr "test.txt";
     in_filetype := JStr "text/plain" |}.

Definition good_reserve : value :=
  JObj [("ok", JBool true); ("upload_url", JStr "https://files.example/u/1");
        ("file_id", JStr "F1")].

Definition three_channels : list (string * value) :=
  [("content", JStr "Hello, world!"); ("filename", JStr "test.txt");
   ("channels", JArr [JStr "C1"; JStr "C2"; JStr "C3"])].

Definition uploaded : value :=
  JObj [("ok", JBool true); ("files", JArr [JObj [("id", JStr "F1")]])].

Definition upload_script : list FetchOutcome :=
  [json_response good_reserve; http_response 200 "OK"; json_response uploaded].

Definition nothing_to_upload : value := JObj [("title", JStr "Quarterly report")].

Definition report_upload : value := JObj [("file_path", JStr "/tmp/report.pdf")].

Definition posted : value :=
  JObj [("ok", JBool true); ("ts", JStr "1234567890.123456")].

Definition post_hello : CallToolRequest :=
  {| name := "slack_post_message";
     arguments := JObj [("channel_id", JStr "C123456789");
                        ("text", JStr "Hello World")] |}.

Definition post_without_text : CallToolRequest :=
  {| name := "slack_post_message";
     arguments := JObj [("channel_id", JStr "C123456789")] |}.

(* ------------------------------------------------------------------ *)
(** ** Vocabulary of the further statements *)

(** The number of faults among some events. *)
Definition count_faults (evs : list event) : nat :=
  List.length (filter is_fault evs).

Definition is_signal (ev : event) : bool :=
  match ev with
  | SIGINT | SIGTERM => true
  | _ => false
  end.

(** Bursts of events with one firing of the reset timer between two
    consecutive bursts. *)
Fixpoint windows (bursts : list (list event)) : list event :=
  match bursts with
  | [] => []
  | [burst] => burst
  | burst :: rest => (burst ++ errorResetInterval :: windows rest)%list
  end.

(** [m] makes no call and ends the same way from every world. *)
Definition Quiet {A} (m : M A) : Prop :=
  exists r, forall n, Runs m n r [].

(** What holds of the process after events of which [k] were faults. *)
Definition harness_ok (p : process) (k : nat) : Prop :=
  match p with
  | Running errorCount => 0 <= errorCount < 10 /\ errorCount <= Z.of_nat k
  | Exited code => code = 0 \/ (code = 1 /\ (10 <= k)%nat)
  end.

(** [m] makes exactly one call, a request satisfying [P], and ends with
    [f] of what the gateway makes of the answer; or it throws before any
    call. *)
Definition OneCall {A} (E : Env) (P : FetchRequest -> Prop) (m : M A) (n : nat)
    (f : result value -> result A) : Prop :=
  (exists req, P req /\ Runs m n (f (api_outcome (net E n req))) [req]) \/
  (exists e, Runs m n (Throw e) []).

(** [{ content: [{ type: "text", text: JSON.stringify(response) }] }]
    around the outcome of a client method. *)
Definition wrapped (r : result value) : result ToolResult :=
  match r with
  | Ok response => Ok (text_result response)
  | Throw e => Throw e
  end.

(** The tools whose case does more than check, call one method and wrap. *)
Definition multi_step_tools : list string :=
  [ "slack_files_upload_v2"; "slack_reminders_add" ].

(** The tools that never send the bot token: the elevated ones and the
    two uploads (the legacy upload sets its own header). *)
Definition user_token_tools : list string :=
  (elevated_tools ++ ["slack_files_upload"; "slack_files_upload_v2"])%list.

(** The Authorization header the requests of a tool carry. *)
Definition tool_Authorization (E : Env) (tool : string) : string :=
  if existsb (String.eqb tool) user_token_tools
  then user_Authorization E
  else Authorization (botHeaders E).

Definition sent_for (E : Env) (tool : string) (req : FetchRequest) : Prop :=
  header "Authorization" (req_headers req) = Some (tool_Authorization E tool).

(** A request as the gateway sends it to the Web API: to an address under
    [https://slack.com/api/], a GET without body or a POST of JSON text,
    declared as JSON. *)
Definition is_api_call (req : FetchRequest) : bool :=
  String.prefix "https://slack.com/api/" (req_url req)
  && match req_body req with
     | None => (req_method req =? "GET")%string
     | Some (TextBody _) => (req_method req =? "POST")%string
     | Some _ => false
     end
  && match header "Content-Type" (req_headers req) with
     | Some content_type => (content_type =? "application/json;charset=utf-8")%string
     | None => false
     end.

(** The request of [addReminder]. *)
Definition reminder_request (E : Env) (args : value) : FetchRequest :=
  api_request E (api "reminders.add")
    (POST [("text", get "text" args);
           ("time", get "time" args);
           ("user", get "user" args)])
    true.

(** What the reminder case returns for the response of [addReminder]. *)
Definition with_reminder_hint (response : value) : value :=
  if falsy (get "ok" response) then
    if is_string "invalid_time" (get "error" response) then
      set_hint "Time format not recognized. Try 'tomorrow at 3pm' or a Unix timestamp"
        response
    else if is_string "cannot_parse" (get "error" response) then
      set_hint "Could not parse the time. Use natural language like 'in 2 hours' or 'next Monday at 9am'"
        response
    else if is_string "time_in_past" (get "error" response) then
      set_hint "The specified time is in the past" response
    else response
  else response.

Definition monday_reminder : value :=
  JObj [("text", JStr "Send the report"); ("time", JStr "next Monday at 9am")].

Definition unparsed_time : list (string * value) :=
  [("ok", JBool false); ("error", JStr "cannot_parse")].

(** The three calls of the v2 upload, in the order of the protocol. *)
Definition upload_protocol (E : Env) (args : value) (input : UploadInput)
    (reserved : value) : list FetchRequest :=
  [ reserve_request E input;
    transfer_request input reserved;
    finalize_to E (first_element (get "channels" args)) args input reserved ].

Definition missing_report : value := JObj [("file_path", JStr "/tmp/missing.pdf")].

(** The elevated methods that build their request from the arguments
    as they are (the two searches call [toString] on an argument first). *)
Definition elevated_direct_methods : list (Env -> value -> M value) :=
  [ deleteFile; addReminder; listReminders; deleteReminder;
    getUploadURLExternal; completeUploadExternal ].

(** An environment without [SLACK_USER_TOKEN]. *)
Definition without_user_token (E : Env) : Env :=
  {| LOG_LEVEL := LOG_LEVEL E;
     SLACK_BOT_TOKEN := SLACK_BOT_TOKEN E;
     SLACK_USER_TOKEN := None;
     SLACK_TEAM_ID := SLACK_TEAM_ID E;
     net := net E;
     readFile := readFile E;
     basename := basename E;
     lookup := lookup E;
     Buffer_from_other := Buffer_from_other E;
     Date_now := Date_now E;
     String_trim := String_trim E;
     StringToNumber := StringToNumber E |}.

(** The two listing tools with a capped page size, and their endpoints. *)
Definition paged_tools : list (string * string) :=
  [ ("slack_list_channels", "conversations.list");
    ("slack_get_users", "users.list") ].

(** The value of the one [limit] parameter of a query. *)
Definition limit_is (text : string) (params : URLSearchParams) : Prop :=
  In ("limit", text) params /\
  forall other, In ("limit", other) params -> other = text.

Definition thousand_channels : value := JObj [("limit", JNum 1000)].

(** The two search tools and their endpoints. *)
Definition search_tools : list (string * string) :=
  [ ("slack_search_messages", "search.messages");
    ("slack_search_files", "search.files") ].

(** A query has a parameter of that name. *)
Definition has_param (k : string) (params : URLSearchParams) : Prop :=
  exists v, In (k, v) params.

Definition budget_search : value :=
  JObj [("query", JStr "budget"); ("highlight", JBool false); ("count", JNum 0)].

(* ================================================================== *)
(** * Theorems *)

Example stringify_drops_undefined :
  JSON_stringify (JObj [("files", JArr [JObj [("id", JStr "F1")]]);
                        ("channel_id", JUndefined); ("n", JNum 13)])
  = Some ("{" ++ dq ++ "files" ++ dq ++ ":[{" ++ dq ++ "id" ++ dq ++ ":"
           ++ dq ++ "F1" ++ dq ++ "}]," ++ dq ++ "n" ++ dq ++ ":13}").
Proof. reflexivity. Qed.


(* ------------------------------------------------------------------ *)
(** ** The logger never fails and never calls out *)

Lemma shouldLog_error (E : Env) : Logger_shouldLog E "error" = true.
Proof.
  unfold Logger_shouldLog, indexOf, levels. cbn.
  repeat match goal with
         | |- context [(?a =? ?b)%string] => destruct (a =? b)%string
         end; reflexivity.
Qed.

Lemma Runs_ret {A} (a : A) n : Runs (ret a) n (Ok a) [].
Proof. intros w _. exists w. split; [reflexivity | now rewrite app_nil_r]. Qed.

Lemma Runs_throw {A} (e : exn) n : Runs (@throw A e) n (Throw e) [].
Proof. intros w _. exists w. split; [reflexivity | now rewrite app_nil_r]. Qed.

Lemma Runs_lift {A} (r : result A) n : Runs (lift r) n r [].
Proof. destruct r; [apply Runs_ret | apply Runs_throw]. Qed.

Lemma Runs_console_error label msg n : Runs (console_error label msg) n (Ok tt) [].
Proof.
  intros w _. eexists. split; [reflexivity | cbn; now rewrite app_nil_r].
Qed.

Lemma Runs_bind {A B} (m : M A) (k : A -> M B) n a l1 r l2 :
  Runs m n (Ok a) l1 ->
  Runs (k a) (n + List.length l1) r l2 ->
  Runs (bind m k) n r (l1 ++ l2).
Proof.
  intros Hm Hk w Hw. destruct (Hm w Hw) as (w1 & E1 & F1).
  destruct (Hk w1) as (w2 & E2 & F2).
  { rewrite F1, length_app. congruence. }
  exists w2. unfold bind. rewrite E1. split; [exact E2 |].
  now rewrite F2, F1, app_assoc.
Qed.

Lemma Runs_bind_throw {A B} (m : M A) (k : A -> M B) n e l :
  Runs m n (Throw e) l -> Runs (bind m k) n (Throw e) l.
Proof.
  intros Hm w Hw. destruct (Hm w Hw) as (w1 & E1 & F1).
  exists w1. unfold bind. now rewrite E1.
Qed.

Lemma Runs_try_ok {A} (m : M A) handler n a l :
  Runs m n (Ok a) l -> Runs (try_catch m handler) n (Ok a) l.
Proof.
  intros Hm w Hw. destruct (Hm w Hw) as (w1 & E1 & F1).
  exists w1. unfold try_catch. now rewrite E1.
Qed.

Lemma Runs_try_throw {A} (m : M A) handler n e l1 r l2 :
  Runs m n (Throw e) l1 ->
  Runs (handler e) (n + List.length l1) r l2 ->
  Runs (try_catch m handler) n r (l1 ++ l2).
Proof.
  intros Hm Hk w Hw. destruct (Hm w Hw) as (w1 & E1 & F1).
  destruct (Hk w1) as (w2 & E2 & F2).
  { rewrite F1, length_app. congruence. }
  exists w2. unfold try_catch. rewrite E1. split; [exact E2 |].
  now rewrite F2, F1, app_assoc.
Qed.

(** A step that makes no call leaves the count of calls where it was. *)
Lemma Runs_seq {A B} (m : M A) (k : A -> M B) n a r l :
  Runs m n (Ok a) [] -> Runs (k a) n r l -> Runs (bind m k) n r l.
Proof.
  intros Hm Hk. change l with ([] ++ l)%list. eapply Runs_bind; [exact Hm |].
  cbn. now rewrite Nat.add_0_r.
Qed.

Lemma Runs_Logger_debug E msg n : Runs (Logger_debug E msg) n (Ok tt) [].
Proof.
  unfold Logger_debug. destruct Logger_shouldLog;
    [apply Runs_console_error | apply Runs_ret].
Qed.

Lemma Runs_Logger_info E msg n : Runs (Logger_info E msg) n (Ok tt) [].
Proof.
  unfold Logger_info. destruct Logger_shouldLog;
    [apply Runs_console_error | apply Runs_ret].
Qed.

Lemma Runs_Logger_warn E msg n : Runs (Logger_warn E msg) n (Ok tt) [].
Proof.
  unfold Logger_warn. destruct Logger_shouldLog;
    [apply Runs_console_error | apply Runs_ret].
Qed.

Lemma Runs_Logger_error E msg n : Runs (Logger_error E msg) n (Ok tt) [].
Proof.
  unfold Logger_error. destruct Logger_shouldLog;
    [apply Runs_console_error | apply Runs_ret].
Qed.

Lemma Runs_Logger_apiRequest E method url n :
  Runs (Logger_apiRequest E method url) n (Ok tt) [].
Proof. apply Runs_Logger_debug. Qed.

Lemma Runs_Logger_apiResponse E method url status n :
  Runs (Logger_apiResponse E method url status) n (Ok tt) [].
Proof.
  unfold Logger_apiResponse. destruct (status >=? 400);
    [apply Runs_Logger_error | apply Runs_Logger_debug].
Qed.

Create HintDb runs.
#[export] Hint Resolve Runs_ret Runs_throw Runs_lift Runs_Logger_debug
  Runs_Logger_info Runs_Logger_warn Runs_Logger_error Runs_Logger_apiRequest
  Runs_Logger_apiResponse : runs.


(* ------------------------------------------------------------------ *)
(** ** The API gateway *)

Lemma Runs_async_ok {A} (body : M (Promise A)) n p l :
  Runs body n (Ok p) l -> Runs (async body) n (Ok p) l.
Proof.
  intros Hb w Hw. destruct (Hb w Hw) as (w1 & E1 & F1).
  exists w1. unfold async. now rewrite E1.
Qed.

Lemma Runs_async_throw {A} (body : M (Promise A)) n e l :
  Runs body n (Throw e) l -> Runs (async body) n (Ok (throw e)) l.
Proof.
  intros Hb w Hw. destruct (Hb w Hw) as (w1 & E1 & F1).
  exists w1. unfold async. now rewrite E1.
Qed.

Lemma Runs_fetch E req n :
  Runs (fetch E req) n
    (Ok (match net E n req with
         | Rejected e => throw e
         | Resolved r => ret r
         end))
    [req].
Proof.
  intros w Hw. eexists. split; [unfold fetch; rewrite Hw; reflexivity | reflexivity].
Qed.

(** The rest of [makeApiRequest], once the answer to its call is known. *)
Lemma Runs_api_promise E method url answer n :
  Runs (try_catch
          (response <- match answer with
                       | Rejected e => throw e
                       | Resolved r => ret r
                       end ;;
           responseBody <- lift (json response) ;;
           Logger_apiResponse E method url (status response) ;;;
           ok <- get_prop "ok" responseBody ;;
           (if falsy ok
            then Logger_error E ("Slack API error for " ++ method ++ " " ++ url)
            else ret tt) ;;;
           ret responseBody)
          (fun error =>
             Logger_error E ("Network error for " ++ method ++ " " ++ url) ;;;
             throw error))
    n (api_outcome answer) [].
Proof.
  assert (Hcatch : forall e m,
             Runs (Logger_error E m ;;; throw e) (n + 0) (@Throw value e) []).
  { intros e m. eapply Runs_seq; auto with runs. }
  destruct answer as [e | r]; cbn [api_outcome].
  - change (@nil FetchRequest) with (@nil FetchRequest ++ [])%list.
    eapply Runs_try_throw; [| apply Hcatch].
    apply Runs_bind_throw; auto with runs.
  - destruct (json r) as [responseBody | e] eqn:J.
    + assert (Hok : forall ok,
                 Runs ((if falsy ok
                        then Logger_error E ("Slack API error for " ++ method ++ " " ++ url)
                        else ret tt) ;;; ret responseBody) n (Ok responseBody) []).
      { intros ok. eapply Runs_seq; [| auto with runs].
        destruct (falsy ok); auto with runs. }
      destruct responseBody;
        try (apply Runs_try_ok;
             eapply Runs_seq; [apply Runs_ret |]; rewrite J;
             eapply Runs_seq; [apply Runs_ret |];
             eapply Runs_seq; [apply Runs_Logger_apiResponse |];
             eapply Runs_seq; [apply (Runs_ret (A:=value)) | apply Hok]);
        change (@nil FetchRequest) with (@nil FetchRequest ++ [])%list;
        (eapply Runs_try_throw; [| apply Hcatch]);
        (eapply Runs_seq; [apply Runs_ret |]); rewrite J;
        (eapply Runs_seq; [apply Runs_ret |]);
        (eapply Runs_seq; [apply Runs_Logger_apiResponse |]);
        apply Runs_bind_throw; apply Runs_throw.
    + change (@nil FetchRequest) with (@nil FetchRequest ++ [])%list.
      eapply Runs_try_throw; [| apply Hcatch].
      eapply Runs_seq; [apply Runs_ret |]. rewrite J.
      apply Runs_bind_throw; auto with runs.
Qed.

(** [makeApiRequest] with a JSON body or none: one call, and the outcome
    read off the answer. *)
Lemma Runs_makeApiRequest E url options useUserToken n :
  (forall entries, body options <> Some (FormData entries)) ->
  Runs (makeApiRequest E url options useUserToken) n
    (api_outcome (net E n (api_request E url options useUserToken)))
    [api_request E url options useUserToken].
Proof.
  intros Hbody. unfold makeApiRequest, await.
  change [api_request E url options useUserToken]
    with ([api_request E url options useUserToken] ++ [])%list.
  eapply Runs_bind; [| apply Runs_api_promise].
  unfold makeApiRequest_async. apply Runs_async_ok.
  eapply Runs_seq.
  { destruct (body options) as [[payload | entries] |] eqn:B; cbn;
      [apply Runs_ret | now destruct (Hbody entries) | apply Runs_ret]. }
  eapply Runs_seq; [apply Runs_Logger_apiRequest |].
  change [api_request E url options useUserToken]
    with ([api_request E url options useUserToken] ++ [])%list.
  eapply Runs_bind; [apply Runs_fetch | apply Runs_ret].
Qed.

(** With a [FormData] body the request is never sent: parsing the body
    for the request log throws first. *)
Lemma Runs_makeApiRequest_FormData E url options useUserToken entries n :
  body options = Some (FormData entries) ->
  Runs (makeApiRequest E url options useUserToken) n
    (Throw (JsError "SyntaxError" "Unexpected token o in JSON at position 1")) [].
Proof.
  intros B. unfold makeApiRequest, await.
  change (@nil FetchRequest) with (@nil FetchRequest ++ [])%list.
  eapply Runs_bind; [| apply Runs_throw].
  unfold makeApiRequest_async. apply Runs_async_throw.
  apply Runs_bind_throw. rewrite B. apply Runs_throw.
Qed.

(** X1. The gateway, for a request whose body is JSON text or absent: it
    makes exactly one call; it throws exactly when the call is rejected,
    the body does not decode, or the decoded body is [null]; otherwise it
    returns the decoded body as it is.  When that body has [ok: false]
    it is still returned, and an error line is written to the log. *)
Theorem makeApiRequest_passes_the_body_through
    (E : Env) (url : string) (options : RequestInit) (useUserToken : bool)
    (w : world) :
  (forall entries, body options <> Some (FormData entries)) ->
  let req := api_request E url options useUserToken in
  let answer := net E (List.length (fetched w)) req in
  exists w',
    makeApiRequest E url options useUserToken w = (api_outcome answer, w') /\
    fetched w' = (fetched w ++ [req])%list /\
    forall r responseBody,
      answer = Resolved r ->
      json r = Ok responseBody ->
      get "ok" responseBody = JBool false ->
      api_outcome answer = Ok responseBody /\
      In {| level := "error";
            message := "Slack API error for " ++ req_method req ++ " " ++ url |}
         (logged w').
Proof.
  intros Hbody req answer.
  destruct (Runs_makeApiRequest E url options useUserToken
              (List.length (fetched w)) Hbody w eq_refl) as (w' & Hw & Hf).
  exists w'. split; [exact Hw |]. split; [exact Hf |].
  intros r responseBody A J K.
  assert (O : api_outcome answer = Ok responseBody).
  { rewrite A. cbn. rewrite J. destruct responseBody; cbn in K; congruence. }
  split; [exact O |].
  subst answer req. revert Hw. rewrite O. unfold api_request in A.
  unfold makeApiRequest, await, makeApiRequest_async, async, bind, fetch,
    try_catch, Logger_apiRequest, Logger_apiResponse, Logger_debug.
  assert (B : match body options with
              | Some b => JSON_parse_body b
              | None => ret tt
              end = ret tt).
  { destruct (body options) as [[payload | entries] |]; cbn;
      [reflexivity | now destruct (Hbody entries) | reflexivity]. }
  rewrite B. unfold ret at 1.
  destruct (Logger_shouldLog E "debug"); cbn [console_error ret fetched logged];
    rewrite A; cbn [ret lift]; rewrite J; cbn [ret lift].
  all: unfold Logger_error; rewrite shouldLog_error.
  all: destruct (status r >=? 400); cbn [console_error ret].
  all: destruct responseBody; cbn in K; try discriminate K.
  all: cbn [get_prop ret get]; rewrite K; cbn [falsy truthy negb console_error].
  all: intros Hw; injection Hw as <-; cbn [logged].
  all: apply in_or_app; right; left; reflexivity.
Qed.

Lemma makeApiRequest_passes_the_body_through_witness :
  let E := scripted [json_response failed_reserve] in
  exists w',
    makeApiRequest E (api "files.delete") (POST [("file", JStr "F1")]) true empty_world
    = (Ok failed_reserve, w') /\
    In {| level := "error";
          message := "Slack API error for POST https://slack.com/api/files.delete" |}
       (logged w').
Proof.
  assert (NB : forall entries,
             body (POST [("file", JStr "F1")]) <> Some (FormData entries))
    by (intros entries; discriminate).
  destruct (makeApiRequest_passes_the_body_through
              (scripted [json_response failed_reserve]) (api "files.delete")
              (POST [("file", JStr "F1")]) true empty_world NB)
    as (w' & Hw & _ & Hlog).
  exists w'.
  destruct (Hlog {| status := 200; statusText := "OK"; json := Ok failed_reserve |}
              failed_reserve eq_refl eq_refl eq_refl) as [_ L].
  split; [exact Hw | exact L].
Defined.

(** C3, where the code departs from it. A request with a [FormData] body
    (the legacy upload builds one) makes [makeApiRequest] throw a
    SyntaxError while it prepares the request log line: nothing has been
    sent, so neither the transport nor the decoding of a response has
    failed. *)
Theorem makeApiRequest_throws_on_FormData_before_fetch
    (E : Env) (w : world) :
  (forall url method headers entries useUserToken,
      exists w',
        makeApiRequest E url
          {| method := method; headers := headers;
             body := Some (FormData entries) |} useUserToken w
        = (Throw (JsError "SyntaxError" "Unexpected token o in JSON at position 1"),
           w') /\
        fetched w' = fetched w)
  /\
  exists w',
    uploadFile E (JObj [("content", JStr "Hello, world!");
                        ("filename", JStr "test.txt")]) w
    = (Throw (JsError "SyntaxError" "Unexpected token o in JSON at position 1"), w')
    /\ fetched w' = fetched w.
Proof.
  split.
  - intros url method headers entries useUserToken.
    destruct (Runs_makeApiRequest_FormData E url
                {| method := method; headers := headers;
                   body := Some (FormData entries) |}
                useUserToken entries (List.length (fetched w)) eq_refl w eq_refl)
      as (w' & Hw & Hf).
    exists w'. split; [exact Hw | now rewrite Hf, app_nil_r].
  - assert (H : Runs (uploadFile E (JObj [("content", JStr "Hello, world!");
                                          ("filename", JStr "test.txt")]))
                  (List.length (fetched w))
                  (Throw (JsError "SyntaxError"
                            "Unexpected token o in JSON at position 1")) []).
    { unfold uploadFile. cbn.
      eapply Runs_seq; [apply Runs_Logger_debug |].
      eapply Runs_seq; [apply Runs_ret |].
      eapply Runs_makeApiRequest_FormData. reflexivity. }
    destruct (H w eq_refl) as (w' & Hw & Hf).
    exists w'. split; [exact Hw | now rewrite Hf, app_nil_r].
Qed.

(* ------------------------------------------------------------------ *)
(** ** The two-phase upload *)

Lemma Runs_getUploadURLExternal E args n :
  let req := api_request E (api "files.getUploadURLExternal")
               (POST [("filename", get "filename" args);
                      ("length", get "length" args);
                      ("alt_text", get "alt_txt" args)]) true in
  Runs (getUploadURLExternal E args) n (api_outcome (net E n req)) [req].
Proof.
  intros req. unfold getUploadURLExternal.
  eapply Runs_seq; [apply Runs_Logger_debug |].
  apply Runs_makeApiRequest. discriminate.
Qed.

Lemma Runs_completeUploadExternal E args n :
  let req := api_request E (api "files.completeUploadExternal")
               (POST [("files", get "files" args);
                      ("channel_id", get "channel_id" args);
                      ("initial_comment", get "initial_comment" args);
                      ("thread_ts", get "thread_ts" args)]) true in
  Runs (completeUploadExternal E args) n (api_outcome (net E n req)) [req].
Proof.
  intros req. unfold completeUploadExternal.
  eapply Runs_seq; [apply Runs_Logger_debug |].
  apply Runs_makeApiRequest. discriminate.
Qed.

(** The input resolution reads the arguments and the file system only:
    it ends the same way from every world and makes no call. *)
Lemma resolve_upload_input_Runs E args :
  exists r, forall n, Runs (resolve_upload_input E args) n r [].
Proof.
  unfold resolve_upload_input.
  destruct (truthy (get "file_path" args)).
  - destruct (readFile E (get "file_path" args)) as [bytes | e] eqn:R.
    + destruct (truthy (get "filename" args)) eqn:F.
      * eexists. intros n. apply Runs_try_ok.
        eapply Runs_seq; [apply Runs_ret |].
        eapply Runs_seq; [apply Runs_ret |].
        eapply Runs_seq; [apply Runs_Logger_debug | apply Runs_ret].
      * destruct (basename E (get "file_path" args)) as [base | e] eqn:B.
        -- eexists. intros n. apply Runs_try_ok.
           eapply Runs_seq; [apply Runs_ret |].
           eapply Runs_seq.
           { eapply Runs_seq; [apply Runs_ret | apply Runs_ret]. }
           eapply Runs_seq; [apply Runs_Logger_debug | apply Runs_ret].
        -- eexists. intros n.
           change (@nil FetchRequest) with (@nil FetchRequest ++ [])%list.
           eapply Runs_try_throw.
           { eapply Runs_seq; [apply Runs_ret |].
             apply Runs_bind_throw. apply Runs_bind_throw. apply Runs_throw. }
           eapply Runs_seq; [apply Runs_Logger_error | apply Runs_throw].
    + eexists. intros n.
      change (@nil FetchRequest) with (@nil FetchRequest ++ [])%list.
      eapply Runs_try_throw.
      { apply Runs_bind_throw. apply Runs_throw. }
      eapply Runs_seq; [apply Runs_Logger_error | apply Runs_throw].
  - destruct (truthy (get "content" args) && truthy (get "filename" args)).
    + unfold Buffer_from.
      destruct (get "content" args);
        try (destruct (Buffer_from_other E _) as [bytes | e]; eexists; intros ?;
             [ eapply Runs_seq; [apply Runs_ret | apply Runs_ret]
             | apply Runs_bind_throw; apply Runs_throw ]).
      eexists. intros ?. eapply Runs_seq; [apply Runs_ret | apply Runs_ret].
    + eexists. intros ?. apply Runs_throw.
Qed.

Lemma resolve_upload_input_from E args w r :
  fst (resolve_upload_input E args w) = r ->
  forall n, Runs (resolve_upload_input E args) n r [].
Proof.
  intros H. destruct (resolve_upload_input_Runs E args) as (r' & Hr).
  destruct (Hr _ w eq_refl) as (w' & Hw & _). rewrite Hw in H. cbn in H.
  now subst r'.
Qed.

(** Step 1 of an upload, answered with a body that is not null. *)
Lemma Runs_reserve E n input r1 reserved :
  net E n (reserve_request E input) = Resolved r1 ->
  json r1 = Ok reserved ->
  nullish reserved = false ->
  Runs (getUploadURLExternal E
          (JObj [("filename", in_filename input);
                 ("length", JNum (Buffer_length (in_content input)))]))
    n (Ok reserved) [reserve_request E input].
Proof.
  intros N J T.
  assert (H : Runs (getUploadURLExternal E
                      (JObj [("filename", in_filename input);
                             ("length", JNum (Buffer_length (in_content input)))]))
                n (api_outcome (net E n (reserve_request E input)))
                [reserve_request E input])
    by exact (Runs_getUploadURLExternal E _ n).
  rewrite N in H.
  replace (api_outcome (Resolved r1)) with (Ok reserved) in H; [exact H |].
  cbn. rewrite J. destruct reserved; cbn in T; congruence.
Qed.

Lemma Runs_calls_eq {A} (m : M A) n r l l' :
  Runs m n r l -> l = l' -> Runs m n r l'.
Proof. now intros H <-. Qed.

Lemma Runs_await_fetch E req n :
  Runs (await (fetch E req)) n
    (match net E n req with
     | Rejected e => Throw e
     | Resolved r => Ok r
     end) [req].
Proof.
  unfold await. eapply Runs_calls_eq.
  - eapply Runs_bind; [apply Runs_fetch |].
    destruct (net E n req); [apply Runs_throw | apply Runs_ret].
  - reflexivity.
Qed.

(** C1. Two-phase upload: when the reserve call (step 1) is answered with
    a body whose [ok] field is [false], [uploadFile_v2] returns that body
    itself and the reserve call is the only call of [fetch] it has made:
    neither the transfer nor the finalize call is issued. *)
Theorem upload_v2_failed_reserve_returned_verbatim
    (E : Env) (args : value) (w : world) (input : UploadInput)
    (r : Response) (body : value) :
  fst (resolve_upload_input E args w) = Ok input ->
  net E (List.length (fetched w)) (reserve_request E input) = Resolved r ->
  json r = Ok body ->
  get "ok" body = JBool false ->
  exists w',
    uploadFile_v2 E args w = (Ok body, w') /\
    fetched w' = (fetched w ++ [reserve_request E input])%list.
Proof.
  intros R N J K.
  assert (H : Runs (uploadFile_v2 E args) (List.length (fetched w)) (Ok body)
                [reserve_request E input]).
  { unfold uploadFile_v2.
    eapply Runs_seq; [apply Runs_Logger_debug |].
    eapply Runs_seq; [apply (resolve_upload_input_from _ _ _ _ R) |].
    eapply Runs_calls_eq.
    - eapply Runs_bind.
      + apply (Runs_reserve E _ input r body N J).
        destruct body; cbn in K; try discriminate; reflexivity.
      + rewrite K. cbn [falsy truthy negb].
        eapply Runs_seq; [apply Runs_Logger_error | apply Runs_ret].
    - reflexivity. }
  exact (H w eq_refl).
Qed.

Lemma upload_v2_failed_reserve_witness :
  exists w',
    uploadFile_v2 (scripted [json_response failed_reserve]) hello_upload empty_world
    = (Ok failed_reserve, w') /\
    fetched w' =
    [reserve_request (scripted [json_response failed_reserve]) hello_input].
Proof.
  apply (upload_v2_failed_reserve_returned_verbatim
           (scripted [json_response failed_reserve]) hello_upload empty_world
           hello_input
           {| status := 200; statusText := "OK"; json := Ok failed_reserve |}
           failed_reserve);
    reflexivity.
Defined.

(** C2. Two-phase upload: when the direct POST of the bytes (step 2) is
    answered with a non-success HTTP status, [uploadFile_v2] throws (the
    exception leaves the coordinator, it is not turned into a result),
    and exactly two calls of [fetch] have been made, the reserve call and
    the transfer: the finalize call is never issued. *)
Theorem upload_v2_failed_transfer_throws
    (E : Env) (args : value) (w : world) (input : UploadInput)
    (r1 : Response) (reserved : value) (r2 : Response) :
  fst (resolve_upload_input E args w) = Ok input ->
  net E (List.length (fetched w)) (reserve_request E input) = Resolved r1 ->
  json r1 = Ok reserved ->
  truthy (get "ok" reserved) = true ->
  net E (S (List.length (fetched w))) (transfer_request input reserved) = Resolved r2 ->
  Response_ok r2 = false ->
  exists w',
    uploadFile_v2 E args w
    = (Throw (JsError "Error" ("Upload failed: " ++ statusText r2)), w') /\
    fetched w' =
    (fetched w ++ [reserve_request E input; transfer_request input reserved])%list.
Proof.
  intros R N1 J1 K N2 F.
  assert (H : Runs (uploadFile_v2 E args) (List.length (fetched w))
                (Throw (JsError "Error" ("Upload failed: " ++ statusText r2)))
                [reserve_request E input; transfer_request input reserved]).
  { unfold uploadFile_v2.
    eapply Runs_seq; [apply Runs_Logger_debug |].
    eapply Runs_seq; [apply (resolve_upload_input_from _ _ _ _ R) |].
    eapply Runs_calls_eq.
    - eapply Runs_bind.
      + apply (Runs_reserve E _ input r1 reserved N1 J1).
        destruct reserved; cbn in K; try discriminate; reflexivity.
      + unfold falsy. rewrite K. cbn [negb List.length].
        rewrite Nat.add_1_r.
        eapply Runs_try_throw.
        * eapply Runs_bind.
          -- pose proof (Runs_await_fetch E (transfer_request input reserved)
                           (S (List.length (fetched w)))) as T.
             rewrite N2 in T. exact T.
          -- apply Runs_bind_throw. rewrite F. apply Runs_throw.
        * eapply Runs_seq; [apply Runs_Logger_error | apply Runs_throw].
    - reflexivity. }
  exact (H w eq_refl).
Qed.

Lemma upload_v2_failed_transfer_witness :
  let E := scripted [json_response good_reserve;
                     http_response 500 "Internal Server Error"] in
  exists w',
    uploadFile_v2 E hello_upload empty_world
    = (Throw (JsError "Error" "Upload failed: Internal Server Error"), w') /\
    fetched w' =
    [reserve_request E hello_input; transfer_request hello_input good_reserve].
Proof.
  apply (upload_v2_failed_transfer_throws
           (scripted [json_response good_reserve;
                      http_response 500 "Internal Server Error"])
           hello_upload empty_world hello_input
           {| status := 200; statusText := "OK"; json := Ok good_reserve |}
           good_reserve
           {| status := 500; statusText := "Internal Server Error";
              json := Throw (JsError "SyntaxError" "Unexpected end of JSON input") |});
    reflexivity.
Defined.

(* ------------------------------------------------------------------ *)
(** ** What a computation sends, whatever the answers *)

Lemma Emits_of_Runs {A} (P : FetchRequest -> Prop) (m : M A) :
  (forall n, exists r l, Runs m n r l /\ Forall P l) -> Emits P m.
Proof.
  intros H w. destruct (H (List.length (fetched w))) as (r & l & Hr & Hl).
  destruct (Hr w eq_refl) as (w' & Hw & Hf).
  exists l. rewrite Hw. now split.
Qed.

Lemma Emits_ret {A} P (a : A) : Emits P (ret a).
Proof. apply Emits_of_Runs. intros n. exists (Ok a), []. auto with runs. Qed.

Lemma Emits_throw {A} P (e : exn) : Emits P (@throw A e).
Proof. apply Emits_of_Runs. intros n. exists (Throw e), []. auto with runs. Qed.

Lemma Emits_lift {A} P (r : result A) : Emits P (lift r).
Proof. destruct r; [apply Emits_ret | apply Emits_throw]. Qed.

Lemma Emits_bind {A B} P (m : M A) (k : A -> M B) :
  Emits P m ->
  (forall a w, fst (m w) = Ok a -> Emits P (k a)) ->
  Emits P (bind m k).
Proof.
  intros Hm Hk w. destruct (Hm w) as (l1 & F1 & P1).
  unfold bind. destruct (m w) as [[a | e] w1] eqn:R; cbn in F1.
  - assert (Ha : fst (m w) = Ok a) by now rewrite R.
    destruct (Hk a w Ha w1) as (l2 & F2 & P2).
    exists (l1 ++ l2)%list. rewrite F2, F1, app_assoc. split; [reflexivity |].
    now apply Forall_app.
  - exists l1. now split.
Qed.

Lemma Emits_try_catch {A} P (m : M A) handler :
  Emits P m -> (forall e, Emits P (handler e)) -> Emits P (try_catch m handler).
Proof.
  intros Hm Hh w. destruct (Hm w) as (l1 & F1 & P1).
  unfold try_catch. destruct (m w) as [[a | e] w1] eqn:R; cbn in F1.
  - exists l1. now split.
  - destruct (Hh e w1) as (l2 & F2 & P2).
    exists (l1 ++ l2)%list. rewrite F2, F1, app_assoc. split; [reflexivity |].
    now apply Forall_app.
Qed.

Lemma Emits_quiet {A} P (m : M A) :
  (forall n, exists r, Runs m n r []) -> Emits P m.
Proof.
  intros H. apply Emits_of_Runs. intros n. destruct (H n) as (r & Hr).
  exists r, []. now split.
Qed.

Lemma Emits_Logger_debug P E msg : Emits P (Logger_debug E msg).
Proof. apply Emits_quiet. intros n. eexists. apply Runs_Logger_debug. Qed.

Lemma Emits_Logger_info P E msg : Emits P (Logger_info E msg).
Proof. apply Emits_quiet. intros n. eexists. apply Runs_Logger_info. Qed.

Lemma Emits_Logger_warn P E msg : Emits P (Logger_warn E msg).
Proof. apply Emits_quiet. intros n. eexists. apply Runs_Logger_warn. Qed.

Lemma Emits_Logger_error P E msg : Emits P (Logger_error E msg).
Proof. apply Emits_quiet. intros n. eexists. apply Runs_Logger_error. Qed.

Lemma Emits_toString P v : Emits P (toString v).
Proof. destruct v; cbn [toString]; (apply Emits_ret || apply Emits_throw). Qed.

Lemma Emits_throw_if P c msg : Emits P (throw_if c msg).
Proof. destruct c; [apply Emits_throw | apply Emits_ret]. Qed.

Lemma Emits_makeApiRequest P E url options useUserToken :
  P (api_request E url options useUserToken) ->
  Emits P (makeApiRequest E url options useUserToken).
Proof.
  intros Hp. apply Emits_of_Runs. intros n.
  destruct (body options) as [[payload | entries] |] eqn:B.
  - eexists _, _. split; [apply Runs_makeApiRequest; congruence | auto].
  - eexists _, _. split; [eapply Runs_makeApiRequest_FormData; eassumption | auto].
  - eexists _, _. split; [apply Runs_makeApiRequest; congruence | auto].
Qed.

Lemma Emits_await_fetch P E req : P req -> Emits P (await (fetch E req)).
Proof.
  intros Hp. apply Emits_of_Runs. intros n.
  eexists _, _. split; [apply Runs_await_fetch | auto].
Qed.

Create HintDb emits.
#[export] Hint Resolve Emits_ret Emits_throw Emits_lift Emits_Logger_debug
  Emits_Logger_info Emits_Logger_warn Emits_Logger_error Emits_toString
  Emits_throw_if : emits.

Lemma calls_made_Emits {A} P (m : M A) w req :
  Emits P m -> In req (calls_made m w) -> P req.
Proof.
  intros H I. destruct (H w) as (l & F & Pl). unfold calls_made in I.
  rewrite F, skipn_app, skipn_all, Nat.sub_diag in I. cbn in I.
  rewrite Forall_forall in Pl. auto.
Qed.

Lemma Emits_search_params P args : Emits P (search_params args).
Proof.
  unfold search_params. apply Emits_bind; [| auto with emits].
  destruct (negb _); [| auto with emits].
  apply Emits_bind; auto with emits.
Qed.

(* ------------------------------------------------------------------ *)
(** ** Channels of the v2 upload *)

Lemma assoc_set_field_other k k' v fs :
  (k =? k')%string = false -> assoc k (set_field k' v fs) = assoc k fs.
Proof.
  intros D. induction fs as [| [k0 v0] fs IH]; cbn.
  - now rewrite D.
  - destruct (k' =? k0)%string eqn:K0; cbn.
    + apply String.eqb_eq in K0. subst k0. now rewrite D.
    + destruct (k =? k0)%string; [reflexivity | exact IH].
Qed.

Lemma assoc_set_field_same k v fs : assoc k (set_field k v fs) = v.
Proof.
  induction fs as [| [k0 v0] fs IH]; cbn.
  - now rewrite String.eqb_refl.
  - destruct (k =? k0)%string eqn:K0; cbn.
    + now rewrite String.eqb_refl.
    + now rewrite K0.
Qed.

Lemma Runs_try_rethrow {A} (m : M A) handler n r l :
  Runs m n r l ->
  (forall e k, Runs (handler e) k (Throw e) []) ->
  Runs (try_catch m handler) n r l.
Proof.
  intros Hm Hh. destruct r as [a | e].
  - now apply Runs_try_ok.
  - eapply Runs_calls_eq; [eapply Runs_try_throw; [exact Hm | apply Hh] |].
    apply app_nil_r.
Qed.

Lemma Runs_bind_ret {A} (m : M A) n r l :
  Runs m n r l -> Runs (x <- m ;; ret x) n r l.
Proof.
  intros Hm. destruct r as [a | e].
  - eapply Runs_calls_eq; [eapply Runs_bind; [exact Hm | apply Runs_ret] |].
    apply app_nil_r.
  - now apply Runs_bind_throw.
Qed.

(** C10. Channels of the v2 upload: with a [channels] array of more than
    one element, the upload behaves exactly as if only the first element
    had been given, and when it reaches the finalize call (step 3) that
    call carries the first element as [channel_id] and no other channel. *)
Theorem upload_v2_forwards_first_channel_only
    (E : Env) (fields : list (string * value)) (c0 c1 : value)
    (others : list value) (w : world) :
  assoc "channels" fields = JArr (c0 :: c1 :: others) ->
  uploadFile_v2 E (JObj fields) w
  = uploadFile_v2 E (JObj (set_field "channels" (JArr [c0]) fields)) w
  /\
  forall input r1 reserved r2,
    fst (resolve_upload_input E (JObj fields) w) = Ok input ->
    net E (List.length (fetched w)) (reserve_request E input) = Resolved r1 ->
    json r1 = Ok reserved ->
    truthy (get "ok" reserved) = true ->
    net E (S (List.length (fetched w))) (transfer_request input reserved)
    = Resolved r2 ->
    Response_ok r2 = true ->
    exists w',
      uploadFile_v2 E (JObj fields) w
      = (api_outcome (net E (S (S (List.length (fetched w))))
                        (finalize_to E c0 (JObj fields) input reserved)), w') /\
      fetched w' =
      (fetched w ++ [reserve_request E input;
                     transfer_request input reserved;
                     finalize_to E c0 (JObj fields) input reserved])%list.
Proof.
  intros C. split.
  - unfold uploadFile_v2, resolve_upload_input. cbn [get].
    rewrite assoc_set_field_same, C.
    rewrite (assoc_set_field_other "file_path"), (assoc_set_field_other "filename"),
      (assoc_set_field_other "filetype"), (assoc_set_field_other "content"),
      (assoc_set_field_other "title"), (assoc_set_field_other "initial_comment"),
      (assoc_set_field_other "thread_ts") by reflexivity.
    reflexivity.
  - intros input r1 reserved r2 R N1 J1 K N2 F.
    assert (H : Runs (uploadFile_v2 E (JObj fields)) (List.length (fetched w))
                  (api_outcome (net E (S (S (List.length (fetched w))))
                                  (finalize_to E c0 (JObj fields) input reserved)))
                  [reserve_request E input; transfer_request input reserved;
                   finalize_to E c0 (JObj fields) input reserved]).
    { unfold uploadFile_v2.
      eapply Runs_seq; [apply Runs_Logger_debug |].
      eapply Runs_seq; [apply (resolve_upload_input_from _ _ _ _ R) |].
      eapply Runs_calls_eq.
      - eapply Runs_bind.
        + apply (Runs_reserve E _ input r1 reserved N1 J1).
          destruct reserved; cbn in K; try discriminate; reflexivity.
        + unfold falsy. rewrite K. cbn [negb List.length].
          rewrite Nat.add_1_r.
          apply Runs_try_rethrow;
            [| intros e k; eapply Runs_seq;
               [apply Runs_Logger_error | apply Runs_throw]].
          eapply Runs_bind.
          * pose proof (Runs_await_fetch E (transfer_request input reserved)
                          (S (List.length (fetched w)))) as T.
            rewrite N2 in T. exact T.
          * rewrite F. cbn [negb List.length]. rewrite Nat.add_1_r.
            eapply Runs_seq; [apply Runs_ret |].
            apply Runs_bind_ret.
            cbn [get]. rewrite C. cbn [first_element].
            exact (Runs_completeUploadExternal E _ _).
      - reflexivity. }
    exact (H w eq_refl).
Qed.

Lemma upload_v2_first_channel_witness :
  uploadFile_v2 (scripted upload_script) (JObj three_channels) empty_world
  = uploadFile_v2 (scripted upload_script)
      (JObj (set_field "channels" (JArr [JStr "C1"]) three_channels)) empty_world
  /\
  exists w',
    uploadFile_v2 (scripted upload_script) (JObj three_channels) empty_world
    = (Ok uploaded, w') /\
    fetched w' =
    [reserve_request (scripted upload_script) hello_input;
     transfer_request hello_input good_reserve;
     finalize_to (scripted upload_script) (JStr "C1") (JObj three_channels)
       hello_input good_reserve].
Proof.
  destruct (upload_v2_forwards_first_channel_only
              (scripted upload_script) three_channels
              (JStr "C1") (JStr "C2") [JStr "C3"] empty_world eq_refl)
    as [Hsame Hfinal].
  split; [exact Hsame |].
  apply (Hfinal hello_input
           {| status := 200; statusText := "OK"; json := Ok good_reserve |}
           good_reserve
           {| status := 200; statusText := "OK";
              json := Throw (JsError "SyntaxError" "Unexpected end of JSON input") |});
    reflexivity.
Defined.

(* ------------------------------------------------------------------ *)
(** ** The dispatcher *)

Lemma entry_logged_run E request w :
  (Logger_info E ("Tool called: " ++ name request) ;;;
   Logger_debug E "Tool request details") w = (Ok tt, entry_logged E request w)
  /\ fetched (entry_logged E request w) = fetched w.
Proof.
  assert (H : Runs (Logger_info E ("Tool called: " ++ name request) ;;;
                    Logger_debug E "Tool request details")
                (List.length (fetched w)) (Ok tt) []).
  { eapply Runs_seq; auto with runs. }
  destruct (H w eq_refl) as (w' & Hw & Hf). unfold entry_logged.
  rewrite Hw. cbn. split; [reflexivity |]. now rewrite Hf, app_nil_r.
Qed.

Lemma Runs_CallToolRequest_handler E request n r l :
  Runs (call_tool E request) n r l ->
  Runs (CallToolRequest_handler E request) n (handled request r) l.
Proof.
  intros H. unfold CallToolRequest_handler.
  eapply Runs_seq; [apply Runs_Logger_info |].
  eapply Runs_seq; [apply Runs_Logger_debug |].
  destruct r as [res | e]; cbn [handled].
  - now apply Runs_try_ok.
  - eapply Runs_calls_eq.
    + eapply Runs_try_throw; [exact H |].
      eapply Runs_seq; [apply Runs_Logger_error | apply Runs_ret].
    + apply app_nil_r.
Qed.

Lemma find_case_None label cs :
  ~ In label (map fst cs) -> find_case label cs = None.
Proof.
  induction cs as [| [l body] cs IH]; cbn; [reflexivity |].
  intros N. destruct (label =? l)%string eqn:L.
  - apply String.eqb_eq in L. subst. exfalso. apply N. now left.
  - apply IH. intros I. apply N. now right.
Qed.

Lemma cases_labels E : map fst (cases E) = tool_names.
Proof. reflexivity. Qed.

(** C6. Missing arguments: a call-tool request without arguments gets a
    normal ToolResult whose text is the serialized error object with the
    message [No arguments provided]; nothing is thrown and no call of
    [fetch] is made. *)
Theorem no_arguments_is_an_error_result (E : Env) (tool : string) (w : world) :
  exists w',
    CallToolRequest_handler E {| name := tool; arguments := JUndefined |} w
    = (Ok (text_result
             (JObj [("error", JStr "No arguments provided");
                    ("tool", JStr tool);
                    ("hint", JStr debug_hint)])), w') /\
    fetched w' = fetched w.
Proof.
  assert (H : Runs (CallToolRequest_handler E
                      {| name := tool; arguments := JUndefined |})
                (List.length (fetched w))
                (handled {| name := tool; arguments := JUndefined |}
                   (Throw (JsError "Error" "No arguments provided"))) []).
  { apply Runs_CallToolRequest_handler. unfold call_tool. cbn.
    apply Runs_bind_throw. apply Runs_throw. }
  destruct (H w eq_refl) as (w' & Hw & Hf). exists w'.
  split; [exact Hw | now rewrite Hf, app_nil_r].
Qed.

(** C7. Unknown tool: a call-tool request with arguments whose name is
    not the name of any tool of the catalog gets a normal ToolResult
    whose text is the serialized error object with the message
    [Unknown tool: <name>]; no call of [fetch] is made. *)
Theorem unknown_tool_is_an_error_result
    (E : Env) (tool : string) (args : value) (w : world) :
  truthy args = true ->
  ~ In tool tool_names ->
  exists w',
    CallToolRequest_handler E {| name := tool; arguments := args |} w
    = (Ok (text_result
             (JObj [("error", JStr ("Unknown tool: " ++ tool));
                    ("tool", JStr tool);
                    ("hint", JStr debug_hint)])), w') /\
    fetched w' = fetched w.
Proof.
  intros T N.
  assert (H : Runs (CallToolRequest_handler E {| name := tool; arguments := args |})
                (List.length (fetched w))
                (handled {| name := tool; arguments := args |}
                   (Throw (JsError "Error" ("Unknown tool: " ++ tool)))) []).
  { apply Runs_CallToolRequest_handler. unfold call_tool. cbn [name arguments].
    unfold falsy. rewrite T. cbn [negb throw_if].
    eapply Runs_seq; [apply Runs_ret |].
    rewrite find_case_None by now rewrite cases_labels.
    apply Runs_throw. }
  destruct (H w eq_refl) as (w' & Hw & Hf). exists w'.
  split; [exact Hw | now rewrite Hf, app_nil_r].
Qed.

Lemma In_tool_names_dec (tool : string) : {In tool tool_names} + {~ In tool tool_names}.
Proof. apply in_dec, string_dec. Defined.

Lemma unknown_tool_witness :
  exists w',
    CallToolRequest_handler (scripted [])
      {| name := "slack_teleport"; arguments := JObj [] |} empty_world
    = (Ok (text_result
             (JObj [("error", JStr "Unknown tool: slack_teleport");
                    ("tool", JStr "slack_teleport");
                    ("hint", JStr debug_hint)])), w') /\
    fetched w' = [].
Proof.
  apply (unknown_tool_is_an_error_result (scripted []) "slack_teleport"
           (JObj []) empty_world).
  - reflexivity.
  - destruct (In_tool_names_dec "slack_teleport") as [I | N] eqn:D;
      [vm_compute in D; discriminate | exact N].
Defined.

(** C5, as stated, fails: the serialized error object has a third member,
    [hint], besides [error] and [tool]. *)
Lemma error_payload_is_not_error_and_tool_only :
  ~ (forall (E : Env) (request : CallToolRequest) (w : world) (e : exn),
        fst (call_tool E request (entry_logged E request w)) = Throw e ->
        fst (CallToolRequest_handler E request w)
        = Ok (text_result (JObj [("error", JStr (exn_message e));
                                 ("tool", JStr (name request))]))).
Proof.
  intros H.
  specialize (H (scripted [])
                {| name := "slack_post_message";
                   arguments := JObj [("channel_id", JStr "C123456789")] |}
                empty_world
                (JsError "Error" "Missing required arguments: channel_id and text")
                eq_refl).
  vm_compute in H. discriminate H.
Qed.

Lemma handler_after_entry E request w :
  CallToolRequest_handler E request w
  = try_catch (call_tool E request)
      (fun error =>
         Logger_error E ("Error executing tool " ++ name request ++ ":") ;;;
         ret (text_result (error_payload error (name request))))
      (entry_logged E request w).
Proof.
  destruct (entry_logged_run E request w) as [Hentry _].
  unfold CallToolRequest_handler. unfold bind at 1 2. unfold bind in Hentry.
  destruct (Logger_info E ("Tool called: " ++ name request) w) as [[[] | e0] w0].
  - now rewrite Hentry.
  - discriminate Hentry.
Qed.

(** C5, amended. Whatever happens in the [try] block of the handler, the
    handler returns a normal ToolResult and throws nothing: the result of
    the block when it returns one, and, when the block throws [e], the
    single text part that serializes
    [{error: message of e, tool: name, hint: the fixed debug hint}]. *)
Theorem handler_never_throws (E : Env) (request : CallToolRequest) (w : world) :
  match call_tool E request (entry_logged E request w) with
  | (Ok res, w1) => CallToolRequest_handler E request w = (Ok res, w1)
  | (Throw e, w1) =>
      exists w',
        CallToolRequest_handler E request w
        = (Ok {| content :=
                   [{| type := "text";
                       text := JSON_stringify
                                 (JObj [("error", JStr (exn_message e));
                                        ("tool", JStr (name request));
                                        ("hint", JStr debug_hint)]) |}] |}, w') /\
        fetched w' = fetched w1
  end.
Proof.
  rewrite handler_after_entry. unfold try_catch.
  destruct (call_tool E request (entry_logged E request w)) as [[res | e] w1].
  - reflexivity.
  - destruct (Runs_Logger_error E ("Error executing tool " ++ name request ++ ":")
                (List.length (fetched w1)) w1 eq_refl) as (w' & Hw & Hf).
    exists w'. unfold bind. rewrite Hw. cbn. split; [reflexivity |].
    now rewrite Hf, app_nil_r.
Qed.

(* ------------------------------------------------------------------ *)
(** ** The resilience harness *)

Lemma Runs_too_many_errors E errorCount n :
  Runs (too_many_errors E errorCount) n
    (Ok (if errorCount >=? MAX_ERROR_COUNT then Exited 1 else Running errorCount)) [].
Proof.
  unfold too_many_errors. destruct (errorCount >=? MAX_ERROR_COUNT).
  - eapply Runs_seq; auto with runs.
  - apply Runs_ret.
Qed.

Lemma Runs_handle E p ev n : Runs (handle E p ev) n (Ok (next p ev)) [].
Proof.
  destruct p as [errorCount | code]; [| apply Runs_ret].
  destruct ev; cbn [handle next].
  - unfold on_uncaughtException.
    eapply Runs_seq; [apply Runs_Logger_error |].
    eapply Runs_seq; [apply Runs_Logger_warn | apply Runs_too_many_errors].
  - unfold on_unhandledRejection.
    eapply Runs_seq; [apply Runs_Logger_error |].
    eapply Runs_seq; [apply Runs_Logger_warn | apply Runs_too_many_errors].
  - unfold on_errorResetInterval. destruct (errorCount >? 0).
    + eapply Runs_seq; auto with runs.
    + apply Runs_ret.
  - unfold shutdown. eapply Runs_seq; auto with runs.
  - unfold shutdown. eapply Runs_seq; auto with runs.
Qed.

Lemma Runs_run E evs : forall p n, Runs (run E p evs) n (Ok (fold_left next evs p)) [].
Proof.
  induction evs as [| ev evs IH]; intros p n; cbn [run fold_left].
  - apply Runs_ret.
  - eapply Runs_seq; [apply Runs_handle | apply IH].
Qed.

Lemma run_result E p evs w : fst (run E p evs w) = Ok (fold_left next evs p).
Proof.
  destruct (Runs_run E evs p _ w eq_refl) as (w' & Hw & _). now rewrite Hw.
Qed.

Ltac to_prop :=
  repeat match goal with
         | H : (_ <? _) = true |- _ => apply Z.ltb_lt in H
         | H : (_ <? _) = false |- _ => apply Z.ltb_ge in H
         | H : (_ >=? _) = _ |- _ => rewrite Z.geb_leb in H
         | H : (_ >? _) = _ |- _ => rewrite Z.gtb_ltb in H
         | H : (_ <=? _) = true |- _ => apply Z.leb_le in H
         | H : (_ <=? _) = false |- _ => apply Z.leb_gt in H
         | H : (_ =? _)%nat = true |- _ => apply Nat.eqb_eq in H
         end.

Lemma faults_accumulate faults :
  Forall (fun ev => is_fault ev = true) faults ->
  forall c,
    fold_left next faults (Running c)
    = if c + Z.of_nat (List.length faults) <? MAX_ERROR_COUNT
      then Running (c + Z.of_nat (List.length faults))
      else if (List.length faults =? 0)%nat then Running c else Exited 1.
Proof.
  unfold MAX_ERROR_COUNT.
  induction 1 as [| ev faults Hev _ IH]; intros c.
  - cbn. rewrite Z.add_0_r. now destruct (c <? 10).
  - cbn [fold_left List.length Nat.eqb].
    assert (Hnext : next (Running c) ev
                    = if c + 1 >=? 10 then Exited 1 else Running (c + 1))
      by (destruct ev; try discriminate; reflexivity).
    rewrite Hnext.
    destruct (c + 1 >=? 10) eqn:G.
    + assert (Hdead : forall l code, fold_left next l (Exited code) = Exited code)
        by (induction l; cbn; auto).
      rewrite Hdead.
      destruct (c + Z.of_nat (S (List.length faults)) <? 10) eqn:L;
        [to_prop; lia | reflexivity].
    + rewrite IH.
      replace (c + 1 + Z.of_nat (List.length faults))
        with (c + Z.of_nat (S (List.length faults))) by lia.
      destruct (c + Z.of_nat (S (List.length faults)) <? 10) eqn:L;
        [reflexivity |].
      destruct (List.length faults =? 0)%nat eqn:Z0; [| reflexivity].
      to_prop. rewrite Z0 in L. lia.
Qed.


(* ------------------------------------------------------------------ *)
(** ** Input resolution of the v2 upload *)

Lemma Sends_first_seq {A B} (m : M A) (k : A -> M B) n a l :
  Runs m n (Ok a) [] -> Sends_first (k a) n l -> Sends_first (bind m k) n l.
Proof.
  intros Hm Hk w Hw. destruct (Hm w Hw) as (w1 & E1 & F1).
  rewrite app_nil_r in F1.
  destruct (Hk w1) as (later & Hl); [congruence |].
  exists later. unfold bind. rewrite E1. now rewrite Hl, F1.
Qed.

Lemma Sends_first_bind {A B} (m : M A) (k : A -> M B) n r l :
  Runs m n r l ->
  (forall a, Emits (fun _ => True) (k a)) ->
  Sends_first (bind m k) n l.
Proof.
  intros Hm Hk w Hw. destruct (Hm w Hw) as (w1 & E1 & F1).
  unfold bind. rewrite E1. destruct r as [a | e].
  - destruct (Hk a w1) as (later & Hl & _). exists later. now rewrite Hl, F1, app_assoc.
  - exists []. cbn. now rewrite F1, app_nil_r.
Qed.

Lemma Emits_completeUploadExternal P E args :
  (forall req, P req) -> Emits P (completeUploadExternal E args).
Proof.
  intros HP. unfold completeUploadExternal.
  apply Emits_bind; [apply Emits_Logger_debug | intros _ _ _].
  apply Emits_makeApiRequest, HP.
Qed.

Lemma upload_v2_reserve_is_first_call E args w input :
  fst (resolve_upload_input E args w) = Ok input ->
  exists later,
    calls_made (uploadFile_v2 E args) w = reserve_request E input :: later.
Proof.
  intros R.
  assert (H : Sends_first (uploadFile_v2 E args) (List.length (fetched w))
                [reserve_request E input]).
  { unfold uploadFile_v2.
    eapply Sends_first_seq; [apply Runs_Logger_debug |].
    eapply Sends_first_seq; [apply (resolve_upload_input_from _ _ _ _ R) |].
    eapply Sends_first_bind.
    - exact (Runs_getUploadURLExternal E _ _).
    - intros uploadUrlResponse.
      destruct (falsy (get "ok" uploadUrlResponse)).
      + apply Emits_bind; auto with emits.
      + apply Emits_try_catch.
        * apply Emits_bind; [now apply Emits_await_fetch | intros uploadResponse _ _].
          apply Emits_bind.
          { destruct (negb _); [apply Emits_throw | apply Emits_ret]. }
          intros _ _ _.
          apply Emits_bind; [now apply Emits_completeUploadExternal | auto with emits].
        * intros error. apply Emits_bind; auto with emits. }
  destruct (H w eq_refl) as (later & Hl). exists later.
  unfold calls_made. rewrite Hl, skipn_app, skipn_all, Nat.sub_diag. reflexivity.
Qed.

Lemma find_case_upload_v2 E :
  find_case "slack_files_upload_v2" (cases E)
  = Some (simple_case
            (fun args => falsy (get "file_path" args)
                         && (falsy (get "content" args) || falsy (get "filename" args)))
            "Missing required arguments: either file_path OR both content and filename"
            (uploadFile_v2 E)).
Proof. reflexivity. Qed.



(* ------------------------------------------------------------------ *)
(** ** Credential selection *)

Lemma Emits_weaken {A} (P Q : FetchRequest -> Prop) (m : M A) :
  (forall req, P req -> Q req) -> Emits P m -> Emits Q m.
Proof.
  intros PQ H w. destruct (H w) as (l & F & Pl). exists l. split; [exact F |].
  rewrite Forall_forall in *. auto.
Qed.

Lemma elevated_methods_send_user_token E method args :
  In method elevated_methods -> Emits (user_authorized E) (method E args).
Proof.
  intros I. cbn in I.
  repeat (destruct I as [<- | I];
          [ apply Emits_bind; [apply Emits_Logger_debug | intros _ _ _];
            first [ apply Emits_makeApiRequest; reflexivity
                  | apply Emits_bind; [apply Emits_search_params | intros ? _ _];
                    apply Emits_makeApiRequest; reflexivity ]
          | ]).
  destruct I.
Qed.

Lemma Emits_simple_case P missing message call args :
  Emits P (call args) -> Emits P (simple_case missing message call args).
Proof.
  intros H. unfold simple_case.
  apply Emits_bind; [apply Emits_throw_if | intros _ _ _].
  apply Emits_bind; [exact H | auto with emits].
Qed.

Lemma Emits_reminders_add_case E args :
  Emits (user_authorized E) (reminders_add_case E args).
Proof.
  unfold reminders_add_case.
  apply Emits_bind; [apply Emits_throw_if | intros _ _ _].
  apply Emits_bind; [apply Emits_throw_if | intros _ _ _].
  apply Emits_bind.
  { destruct (get "time" args); auto with emits.
    destruct (_ <? _); auto with emits. }
  intros _ _ _.
  apply Emits_bind.
  { apply (elevated_methods_send_user_token E addReminder). cbn. auto. }
  intros response _ _.
  apply Emits_bind; [| auto with emits].
  destruct (falsy _); [| auto with emits].
  apply Emits_bind; auto with emits.
Qed.

Lemma Emits_CallToolRequest_handler P E request :
  Emits P (call_tool E request) -> Emits P (CallToolRequest_handler E request).
Proof.
  intros H. unfold CallToolRequest_handler.
  apply Emits_bind; [apply Emits_Logger_info | intros _ _ _].
  apply Emits_bind; [apply Emits_Logger_debug | intros _ _ _].
  apply Emits_try_catch; [exact H | intros error].
  apply Emits_bind; auto with emits.
Qed.

Ltac pick_case :=
  match goal with
  | |- context [find_case ?l (cases ?E)] =>
      let b := eval cbv [find_case cases String.eqb Ascii.eqb Bool.eqb andb]
               in (find_case l (cases E)) in
      change (find_case l (cases E)) with b
  end.

Lemma elevated_tools_send_user_token E tool args :
  In tool elevated_tools ->
  Emits (user_authorized E)
        (CallToolRequest_handler E {| name := tool; arguments := args |}).
Proof.
  intros I. apply Emits_CallToolRequest_handler. unfold call_tool.
  apply Emits_bind; [apply Emits_throw_if | intros _ _ _].
  cbn [name arguments]. cbn in I.
  repeat (destruct I as [<- | I];
          [ pick_case;
            first [ apply Emits_reminders_add_case
                  | apply Emits_simple_case;
                    match goal with
                    | |- Emits _ (?method E args) =>
                        apply (elevated_methods_send_user_token E method args);
                        cbn; tauto
                    end ]
          | ]).
  destruct I.
Qed.

Lemma uploadFile_v2_sends_user_token_if_any E args :
  Emits (user_authorized_if_any E) (uploadFile_v2 E args).
Proof.
  assert (Hm : forall method a,
             In method elevated_methods ->
             Emits (user_authorized_if_any E) (method E a)).
  { intros method a I.
    eapply Emits_weaken; [| apply (elevated_methods_send_user_token E method a I)].
    intros req H b Hb. unfold user_authorized in H. congruence. }
  unfold uploadFile_v2.
  apply Emits_bind; [apply Emits_Logger_debug | intros _ _ _].
  apply Emits_bind.
  { apply Emits_quiet. intros n.
    destruct (resolve_upload_input_Runs E args) as (r & Hr). exists r. apply Hr. }
  intros input _ _.
  apply Emits_bind; [apply Hm; cbn; tauto | intros uploadUrlResponse _ _].
  destruct (falsy (get "ok" uploadUrlResponse)).
  - apply Emits_bind; auto with emits.
  - apply Emits_try_catch.
    + apply Emits_bind.
      { apply Emits_await_fetch. intros a Ha. cbn in Ha. discriminate Ha. }
      intros uploadResponse _ _.
      apply Emits_bind.
      { destruct (negb _); [apply Emits_throw | apply Emits_ret]. }
      intros _ _ _.
      apply Emits_bind; [apply Hm; cbn; tauto | auto with emits].
    + intros error. apply Emits_bind; auto with emits.
Qed.



(* ------------------------------------------------------------------ *)
(** ** Scenarios *)

(** Posting a message: one request to chat.postMessage with the bot
    token, and the answer of the remote side, serialized, as the result. *)
Example post_message_passes_the_answer_through :
  let run := CallToolRequest_handler (scripted [json_response posted])
               post_hello empty_world in
  fst run = Ok (text_result posted) /\
  fetched (snd run)
  = [api_request (scripted [json_response posted]) (api "chat.postMessage")
       (POST [("channel", JStr "C123456789"); ("text", JStr "Hello World")])
       false] /\
  map (fun req => header "Authorization" (req_headers req)) (fetched (snd run))
  = [Some "Bearer xoxb-bot"].
Proof. vm_compute. repeat split. Qed.

(** A message without text: the error names the field and nothing is sent. *)
Example post_message_without_text_sends_nothing :
  let run := CallToolRequest_handler (scripted [json_response posted])
               post_without_text empty_world in
  fst run
  = Ok (text_result
          (error_payload
             (JsError "Error" "Missing required arguments: channel_id and text")
             "slack_post_message")) /\
  fetched (snd run) = [].
Proof. vm_compute. repeat split. Qed.

(** The v2 upload of inline text: three calls, in order, and the answer
    to the third as the result. *)
Example upload_v2_makes_three_calls_in_order :
  let E := scripted upload_script in
  let run := CallToolRequest_handler E
               {| name := "slack_files_upload_v2"; arguments := hello_upload |}
               empty_world in
  fst run = Ok (text_result uploaded) /\
  fetched (snd run)
  = [reserve_request E hello_input;
     transfer_request hello_input good_reserve;
     finalize_to E JUndefined hello_upload hello_input good_reserve].
Proof. vm_compute. repeat split. Qed.

(* ================================================================== *)
(** * Further properties *)

(* ------------------------------------------------------------------ *)
(** ** Log levels *)

Lemma indexOf_levels_bounds x : -1 <= indexOf x levels <= 3.
Proof.
  unfold indexOf, levels. cbn.
  repeat match goal with
         | |- context [(?a =? ?b)%string] => destruct (a =? b)%string
         end; lia.
Qed.

Lemma indexOf_levels_absent x : ~ In x levels -> indexOf x levels = -1.
Proof.
  intros N. unfold indexOf, levels in *. cbn in *.
  repeat match goal with
         | |- context [(?a =? ?b)%string] =>
             destruct (String.eqb_spec a b); [exfalso; apply N; subst; tauto |]
         end.
  reflexivity.
Qed.

(** X2. Log levels. A line at level [error] is written whatever
    SLACK_MCP_LOG_LEVEL is, and so is the line for a response of HTTP
    status 400 or more; with a value of SLACK_MCP_LOG_LEVEL that is none
    of debug, info, warn, error, every line of every level is written,
    the debug ones included; with [error], nothing below is. *)
Theorem log_level_filter (E : Env) :
  (forall msg w,
      Logger_error E msg w
      = (Ok tt, {| fetched := fetched w;
                   logged := logged w ++ [{| level := "error"; message := msg |}] |})) /\
  (forall method url status w,
      400 <= status ->
      exists line,
        Logger_apiResponse E method url status w
        = (Ok tt, {| fetched := fetched w;
                     logged := logged w ++ [{| level := "error"; message := line |}] |})) /\
  (~ In (LOG_LEVEL E) levels ->
   forall lvl, Logger_shouldLog E lvl = true) /\
  (~ In (LOG_LEVEL E) levels ->
   forall msg w,
     Logger_debug E msg w
     = (Ok tt, {| fetched := fetched w;
                  logged := logged w ++ [{| level := "debug"; message := msg |}] |})) /\
  (LOG_LEVEL E = "error" ->
   forall msg w,
     Logger_debug E msg w = (Ok tt, w) /\ Logger_info E msg w = (Ok tt, w) /\
     Logger_warn E msg w = (Ok tt, w) /\ Logger_success E msg w = (Ok tt, w)).
Proof.
  assert (All : ~ In (LOG_LEVEL E) levels -> forall lvl, Logger_shouldLog E lvl = true).
  { intros N lvl. unfold Logger_shouldLog. rewrite (indexOf_levels_absent _ N).
    pose proof (indexOf_levels_bounds lvl). rewrite Z.geb_leb. apply Z.leb_le. lia. }
  split; [| split; [| split; [| split]]].
  - intros msg w. unfold Logger_error. now rewrite shouldLog_error.
  - intros method url status w S. unfold Logger_apiResponse.
    replace (status >=? 400) with true
      by (symmetry; rewrite Z.geb_leb; apply Z.leb_le; exact S).
    eexists. unfold Logger_error. now rewrite shouldLog_error.
  - exact All.
  - intros N msg w. unfold Logger_debug. now rewrite (All N).
  - intros L msg w.
    unfold Logger_debug, Logger_info, Logger_warn, Logger_success, Logger_shouldLog.
    rewrite L. repeat split; reflexivity.
Qed.

(* ------------------------------------------------------------------ *)
(** ** The harness, for every sequence of events *)

Lemma next_Exited evs code : fold_left next evs (Exited code) = Exited code.
Proof. induction evs; cbn; auto. Qed.

Lemma harness_ok_next p ev k :
  harness_ok p k ->
  harness_ok (next p ev) (k + (if is_fault ev then 1 else 0)).
Proof.
  destruct p as [c | code]; cbn [harness_ok next].
  - intros [B K]. unfold MAX_ERROR_COUNT.
    destruct ev; cbn [is_fault harness_ok].
    + destruct (c + 1 >=? 10) eqn:G; to_prop; cbn [harness_ok]; lia.
    + destruct (c + 1 >=? 10) eqn:G; to_prop; cbn [harness_ok]; lia.
    + destruct (c >? 0) eqn:G; to_prop; cbn [harness_ok]; lia.
    + now left.
    + now left.
  - intros [Z | [O K]]; [now left | right; split; [exact O | lia]].
Qed.

Lemma harness_ok_run evs : forall p k,
  harness_ok p k -> harness_ok (fold_left next evs p) (k + count_faults evs).
Proof.
  induction evs as [| ev evs IH]; intros p k H; cbn [fold_left].
  - unfold count_faults. cbn. now rewrite Nat.add_0_r.
  - specialize (IH _ _ (harness_ok_next p ev k H)).
    replace (k + count_faults (ev :: evs))%nat
      with (k + (if is_fault ev then 1 else 0) + count_faults evs)%nat; [exact IH |].
    unfold count_faults. cbn [filter]. destruct (is_fault ev); cbn; lia.
Qed.

Lemma run_fetched E p evs w : fetched (snd (run E p evs w)) = fetched w.
Proof.
  destruct (Runs_run E evs p _ w eq_refl) as (w' & Hw & Hf).
  rewrite Hw. cbn. now rewrite Hf, app_nil_r.
Qed.


Lemma windows_cons burst next_burst rest :
  windows (burst :: next_burst :: rest)
  = (burst ++ errorResetInterval :: windows (next_burst :: rest))%list.
Proof. reflexivity. Qed.

Lemma windows_from bursts : forall c,
  0 <= c ->
  Forall (fun burst => Forall (fun ev => is_fault ev = true) burst
                       /\ (List.length burst < 10)%nat) (tl bursts) ->
  Forall (fun ev => is_fault ev = true) (hd [] bursts) ->
  c + Z.of_nat (List.length (hd [] bursts)) < 10 ->
  fold_left next (windows bursts) (Running c)
  = Running (match bursts with
             | [] => c
             | [burst] => c + Z.of_nat (List.length burst)
             | _ => Z.of_nat (List.length (last bursts []))
             end).
Proof.
  induction bursts as [| burst rest IH]; intros c C T H L; [reflexivity |].
  cbn [hd tl] in *. destruct rest as [| next_burst rest].
  - cbn [windows]. rewrite (faults_accumulate burst H).
    unfold MAX_ERROR_COUNT.
    destruct (c + Z.of_nat (List.length burst) <? 10) eqn:B; [reflexivity | to_prop; lia].
  - rewrite windows_cons, fold_left_app, (faults_accumulate burst H).
    unfold MAX_ERROR_COUNT.
    destruct (c + Z.of_nat (List.length burst) <? 10) eqn:B; [| to_prop; lia].
    cbn [fold_left next].
    assert (R : (if c + Z.of_nat (List.length burst) >? 0
                 then Running 0
                 else Running (c + Z.of_nat (List.length burst))) = Running 0).
    { destruct (c + Z.of_nat (List.length burst) >? 0) eqn:G;
        [reflexivity | to_prop; f_equal; lia]. }
    rewrite R. inversion T as [| ? ? [Hn Ln] T']; subst.
    rewrite (IH 0); cbn [hd tl]; try lia; try assumption.
    destruct rest; reflexivity.
Qed.



(* ------------------------------------------------------------------ *)
(** ** The catalog and the switch *)

(** X5. Catalog and switch. The 46 tool names of the catalog are
    distinct, and a name has a case in the dispatcher exactly when it is
    in the catalog: every listed tool is served, and nothing else is. *)
Theorem catalog_and_switch_agree (E : Env) :
  NoDup tool_names /\
  List.length tool_names = 46%nat /\
  forall tool, In tool tool_names <-> find_case tool (cases E) <> None.
Proof.
  split; [| split].
  - replace tool_names with (nodup string_dec tool_names) by reflexivity.
    apply NoDup_nodup.
  - reflexivity.
  - intros tool. split.
    + intros I. cbn in I.
      repeat (destruct I as [<- | I]; [pick_case; discriminate |]).
      destruct I.
    + intros F. destruct (In_tool_names_dec tool) as [I | N]; [exact I |].
      exfalso. apply F. apply find_case_None. now rewrite cases_labels.
Qed.

(* ------------------------------------------------------------------ *)
(** ** Checks before any call *)



(* ------------------------------------------------------------------ *)
(** ** One tool, one call *)

Lemma Quiet_ret {A} (a : A) : Quiet (ret a).
Proof. exists (Ok a). intros n. apply Runs_ret. Qed.

Lemma Quiet_throw {A} (e : exn) : Quiet (@throw A e).
Proof. exists (Throw e). intros n. apply Runs_throw. Qed.

Lemma Quiet_lift {A} (r : result A) : Quiet (lift r).
Proof. exists r. intros n. apply Runs_lift. Qed.

Lemma Quiet_bind {A B} (m : M A) (k : A -> M B) :
  Quiet m -> (forall a, Quiet (k a)) -> Quiet (bind m k).
Proof.
  intros [[a | e] Hm] Hk.
  - destruct (Hk a) as [r Hr]. exists r. intros n.
    eapply Runs_seq; [apply Hm | apply Hr].
  - exists (Throw e). intros n. apply Runs_bind_throw, Hm.
Qed.

Lemma Quiet_Logger_debug E msg : Quiet (Logger_debug E msg).
Proof. exists (Ok tt). intros n. apply Runs_Logger_debug. Qed.

Lemma Quiet_Logger_warn E msg : Quiet (Logger_warn E msg).
Proof. exists (Ok tt). intros n. apply Runs_Logger_warn. Qed.

Lemma Quiet_Logger_error E msg : Quiet (Logger_error E msg).
Proof. exists (Ok tt). intros n. apply Runs_Logger_error. Qed.

Lemma Quiet_get_prop k o : Quiet (get_prop k o).
Proof. destruct o; cbn [get_prop]; (apply Quiet_ret || apply Quiet_throw). Qed.

Lemma Quiet_toString v : Quiet (toString v).
Proof. destruct v; cbn [toString]; (apply Quiet_ret || apply Quiet_throw). Qed.

Lemma Quiet_throw_if c msg : Quiet (throw_if c msg).
Proof. destruct c; [apply Quiet_throw | apply Quiet_ret]. Qed.

Lemma Quiet_Array_join recv v : Quiet (Array_join recv v).
Proof. destruct v; cbn [Array_join]; (apply Quiet_ret || apply Quiet_throw). Qed.

Lemma Quiet_search_params args : Quiet (search_params args).
Proof.
  unfold search_params. apply Quiet_bind; [| intros; apply Quiet_ret].
  destruct (negb _); [| apply Quiet_ret].
  apply Quiet_bind; [apply Quiet_toString | intros; apply Quiet_ret].
Qed.

Create HintDb quiet.
#[export] Hint Resolve Quiet_ret Quiet_throw Quiet_lift Quiet_Logger_debug
  Quiet_Logger_warn Quiet_Logger_error Quiet_get_prop Quiet_toString
  Quiet_throw_if Quiet_Array_join Quiet_search_params : quiet.

Lemma OneCall_after {A B} E P (m : M A) (k : A -> M B) n f :
  Quiet m -> (forall a, OneCall E P (k a) n f) -> OneCall E P (bind m k) n f.
Proof.
  intros [[a | e] Hm] Hk.
  - destruct (Hk a) as [(req & Hp & Hr) | [e Hr]].
    + left. exists req. split; [exact Hp |]. eapply Runs_seq; [apply Hm | exact Hr].
    + right. exists e. eapply Runs_seq; [apply Hm | exact Hr].
  - right. exists e. apply Runs_bind_throw, Hm.
Qed.

Lemma OneCall_makeApiRequest E (P : FetchRequest -> Prop) url options useUserToken n :
  match body options with
  | Some (FormData _) => True
  | _ => P (api_request E url options useUserToken)
  end ->
  OneCall E P (makeApiRequest E url options useUserToken) n (fun r => r).
Proof.
  intros Hp. destruct (body options) as [[payload | entries] |] eqn:B.
  - left. eexists. split; [exact Hp |]. apply Runs_makeApiRequest. congruence.
  - right. eexists. eapply Runs_makeApiRequest_FormData. eassumption.
  - left. eexists. split; [exact Hp |]. apply Runs_makeApiRequest. congruence.
Qed.

(** [getUsers] starts its request, logs, and then awaits it. *)
Lemma OneCall_getUsers E (P : FetchRequest -> Prop) limit cursor n :
  (forall params, P (api_request E (with_query "users.list" params) GET false)) ->
  OneCall E P (getUsers E limit cursor) n (fun r => r).
Proof.
  intros Hp. unfold getUsers. cbv zeta.
  apply OneCall_after; [apply Quiet_Logger_debug | intros _].
  left. eexists. split; [apply Hp |]. eapply Runs_calls_eq.
  - eapply Runs_bind.
    + unfold makeApiRequest_async. apply Runs_async_ok.
      eapply Runs_seq; [apply Runs_ret |].
      eapply Runs_seq; [apply Runs_Logger_apiRequest |].
      eapply Runs_calls_eq;
        [eapply Runs_bind; [apply Runs_fetch | apply Runs_ret] | reflexivity].
    + eapply Runs_seq; [apply Runs_Logger_debug |].
      apply Runs_api_promise.
  - reflexivity.
Qed.

Lemma OneCall_wrapped E P (m : M value) (k : value -> M ToolResult) n :
  (forall v, k v = ret (text_result v)) ->
  OneCall E P m n (fun r => r) ->
  OneCall E P (bind m k) n wrapped.
Proof.
  intros K [(req & Hp & Hr) | [e Hr]].
  - left. exists req. split; [exact Hp |].
    destruct (api_outcome (net E n req)) as [v | e]; cbn [wrapped].
    + eapply Runs_calls_eq; [eapply Runs_bind; [exact Hr | rewrite K; apply Runs_ret] |].
      reflexivity.
    + now apply Runs_bind_throw.
  - right. exists e. now apply Runs_bind_throw.
Qed.

Lemma OneCall_simple_case E P missing message call args n :
  OneCall E P (call args) n (fun r => r) ->
  OneCall E P (simple_case missing message call args) n wrapped.
Proof.
  intros H. unfold simple_case.
  apply OneCall_after; [apply Quiet_throw_if | intros _].
  exact (OneCall_wrapped E P (call args) _ n (fun v => eq_refl) H).
Qed.

Ltac one_call :=
  cbv zeta;
  repeat first
    [ apply OneCall_makeApiRequest; cbn [body POST GET]; split; reflexivity
    | apply OneCall_after; [solve [repeat first [ solve [auto with quiet]
                                                  | apply Quiet_bind; [| intros ?]
                                                  | destruct (truthy _) ]]
                           | intros ? ] ].

Create HintDb methods.
#[export] Hint Unfold getChannels postMessage postReply addReaction
  getChannelHistory getThreadReplies getUserProfile getUserByEmail
  createCanvas editCanvas createChannelCanvas getCanvas deleteCanvas
  setCanvasAccess uploadFile listFiles getFileInfo deleteFile
  getUploadURLExternal completeUploadExternal searchMessages searchFiles
  listReminders deleteReminder createConversation archiveConversation
  unarchiveConversation inviteToConversation kickFromConversation
  renameConversation setConversationPurpose setConversationTopic
  joinConversation leaveConversation addPin removePin listPins removeReaction
  getReactions listReactions openView updateView pushView : methods.

Lemma OneCall_call_tool E tool args n :
  In tool tool_names ->
  ~ In tool multi_step_tools ->
  OneCall E (fun req => sent_for E tool req /\ is_api_call req = true)
    (call_tool E {| name := tool; arguments := args |}) n wrapped.
Proof.
  intros I NM. unfold call_tool. cbn [name arguments].
  apply OneCall_after; [apply Quiet_throw_if | intros _].
  cbn in I.
  repeat (destruct I as [<- | I];
          [ try (exfalso; apply NM; cbn; tauto);
            pick_case;
            first [ apply OneCall_simple_case; cbv beta;
                    first [ apply OneCall_getUsers; intros ?; split; reflexivity
                          | autounfold with methods; one_call ]
                  | cbv beta;
                    apply OneCall_after; [apply Quiet_throw_if | intros _];
                    apply OneCall_after; [apply Quiet_throw_if | intros _];
                    refine (OneCall_wrapped E _ _ _ n (fun v => eq_refl) _);
                    autounfold with methods; one_call ]
          | ]).
  destruct I.
Qed.

(** X7. One tool, one call. Every tool but the v2 upload and the
    reminder creation does one of two things, whatever its arguments:
    it makes exactly one call of [fetch] and answers with what the
    remote side sent, serialized as it is (a body with [ok: false]
    included; when the call or the decoding fails, the error result
    carries the message of that failure), or it makes no call at all and
    answers with an error result.  The one request carries the user
    token for the tools of file deletion, reminders, search and the two
    upload steps, and the bot token for every other tool that sends one.
    It goes to an address under [https://slack.com/api/] and is a GET
    without body or a POST of JSON text, declared as JSON. *)
Theorem served_with_at_most_one_call
    (E : Env) (tool : string) (args : value) (w : world) :
  In tool tool_names ->
  ~ In tool multi_step_tools ->
  exists w',
    (exists req,
        CallToolRequest_handler E {| name := tool; arguments := args |} w
        = (Ok (match api_outcome (net E (List.length (fetched w)) req) with
               | Ok responseBody => text_result responseBody
               | Throw e => text_result (error_payload e tool)
               end), w') /\
        fetched w' = (fetched w ++ [req])%list /\
        header "Authorization" (req_headers req)
        = Some (tool_Authorization E tool) /\
        is_api_call req = true) \/
    (exists e,
        CallToolRequest_handler E {| name := tool; arguments := args |} w
        = (Ok (text_result (error_payload e tool)), w') /\
        fetched w' = fetched w).
Proof.
  intros I NM.
  destruct (OneCall_call_tool E tool args (List.length (fetched w)) I NM)
    as [(req & Hp & Hr) | [e Hr]].
  - destruct (Runs_CallToolRequest_handler E _ _ _ _ Hr w eq_refl) as (w' & Hw & Hf).
    exists w'. left. exists req. split; [| split; [exact Hf |]].
    + rewrite Hw. destruct (api_outcome _); reflexivity.
    + exact Hp.
  - destruct (Runs_CallToolRequest_handler E _ _ _ _ Hr w eq_refl) as (w' & Hw & Hf).
    exists w'. right. exists e. split; [exact Hw | now rewrite Hf, app_nil_r].
Qed.

Lemma served_with_at_most_one_call_witness :
  exists w',
    (exists req,
        CallToolRequest_handler (scripted [json_response posted]) post_hello empty_world
        = (Ok (match api_outcome (net (scripted [json_response posted]) 0 req) with
               | Ok responseBody => text_result responseBody
               | Throw e => text_result (error_payload e "slack_post_message")
               end), w') /\
        fetched w' = [req] /\
        header "Authorization" (req_headers req) = Some "Bearer xoxb-bot" /\
        is_api_call req = true) \/
    (exists e,
        CallToolRequest_handler (scripted [json_response posted]) post_hello empty_world
        = (Ok (text_result (error_payload e "slack_post_message")), w') /\
        fetched w' = []).
Proof.
  apply (served_with_at_most_one_call (scripted [json_response posted])
           "slack_post_message"
           (JObj [("channel_id", JStr "C123456789"); ("text", JStr "Hello World")])
           empty_world).
  - cbn. tauto.
  - cbn. intros [H | [H | []]]; discriminate H.
Defined.

(* ------------------------------------------------------------------ *)
(** ** Reminders *)

Lemma Runs_addReminder E args n :
  Runs (addReminder E args) n (api_outcome (net E n (reminder_request E args)))
    [reminder_request E args].
Proof.
  unfold addReminder. eapply Runs_seq; [apply Runs_Logger_debug |].
  apply Runs_makeApiRequest. discriminate.
Qed.

Lemma with_reminder_hint_other k response :
  (k =? "hint")%string = false ->
  get k (with_reminder_hint response) = get k response.
Proof.
  intros K. unfold with_reminder_hint, set_hint.
  destruct (falsy _); [| reflexivity].
  repeat (destruct (is_string _ _);
          [destruct response; try reflexivity; cbn [get];
           now apply assoc_set_field_other |]).
  reflexivity.
Qed.

(** X8. Reminder creation.
    (a) A time that is a string of blanks only is refused before any
        call, with the message [Time cannot be an empty string].
    (b) With a text and a usable time (a time in the past included), one
        request is sent with the user token, and the answer is what the
        remote side sent, with one change at most: when it reports
        [ok: false] with the error invalid_time, cannot_parse or
        time_in_past, a member [hint] is set.
    (c) No other member of the answer is ever changed, and an answer with
        a truthy [ok] is returned as it is. *)
Theorem reminder_creation (E : Env) (args : value) (w : world) :
  truthy args = true ->
  truthy (get "text" args) = true ->
  (forall t,
      get "time" args = JStr t ->
      String_trim E t = EmptyString ->
      exists w',
        CallToolRequest_handler E
          {| name := "slack_reminders_add"; arguments := args |} w
        = (Ok (text_result
                 (error_payload (JsError "Error" "Time cannot be an empty string")
                    "slack_reminders_add")), w') /\
        fetched w' = fetched w) /\
  (nullish (get "time" args) = false ->
   (forall t, get "time" args = JStr t -> String_trim E t <> EmptyString) ->
   forall r responseBody,
     net E (List.length (fetched w)) (reminder_request E args) = Resolved r ->
     json r = Ok responseBody ->
     nullish responseBody = false ->
     exists w',
       CallToolRequest_handler E
         {| name := "slack_reminders_add"; arguments := args |} w
       = (Ok (text_result (with_reminder_hint responseBody)), w') /\
       fetched w' = (fetched w ++ [reminder_request E args])%list /\
       header "Authorization" (req_headers (reminder_request E args))
       = Some (user_Authorization E)) /\
  (forall responseBody,
      (forall k, k <> "hint" ->
                 get k (with_reminder_hint responseBody) = get k responseBody) /\
      (truthy (get "ok" responseBody) = true ->
       with_reminder_hint responseBody = responseBody) /\
      (forall fs, responseBody = JObj fs ->
                  truthy (assoc "ok" fs) = false ->
                  (assoc "error" fs = JStr "invalid_time" ->
                   get "hint" (with_reminder_hint responseBody)
                   = JStr "Time format not recognized. Try 'tomorrow at 3pm' or a Unix timestamp") /\
                  (assoc "error" fs = JStr "cannot_parse" ->
                   get "hint" (with_reminder_hint responseBody)
                   = JStr "Could not parse the time. Use natural language like 'in 2 hours' or 'next Monday at 9am'") /\
                  (assoc "error" fs = JStr "time_in_past" ->
                   get "hint" (with_reminder_hint responseBody)
                   = JStr "The specified time is in the past"))).
Proof.
  intros T X.
  assert (Entry : forall r l,
             Runs (reminders_add_case E args) (List.length (fetched w)) r l ->
             exists w',
               CallToolRequest_handler E
                 {| name := "slack_reminders_add"; arguments := args |} w
               = (handled {| name := "slack_reminders_add"; arguments := args |} r, w')
               /\ fetched w' = (fetched w ++ l)%list).
  { intros r l H.
    refine (Runs_CallToolRequest_handler E
              {| name := "slack_reminders_add"; arguments := args |} _ r l _
              w eq_refl).
    unfold call_tool. cbn [name arguments]. unfold falsy at 1. rewrite T.
    cbn [negb throw_if]. eapply Runs_seq; [apply Runs_ret |].
    pick_case. exact H. }
  split; [| split].
  - intros t Ti B.
    destruct (Entry (Throw (JsError "Error" "Time cannot be an empty string")) [])
      as (w' & Hw & Hf).
    { unfold reminders_add_case. rewrite Ti. unfold falsy. rewrite X.
      cbn [negb nullish orb throw_if]. eapply Runs_seq; [apply Runs_ret |].
      rewrite B. cbn [String.eqb throw_if]. apply Runs_bind_throw, Runs_throw. }
    exists w'. split; [exact Hw | now rewrite Hf, app_nil_r].
  - intros Nn Tr r responseBody N J Nb.
    destruct (Entry (Ok (text_result (with_reminder_hint responseBody)))
                [reminder_request E args]) as (w' & Hw & Hf).
    { unfold reminders_add_case. unfold falsy at 1. rewrite X, Nn.
      cbn [negb orb throw_if]. eapply Runs_seq; [apply Runs_ret |].
      eapply Runs_seq.
      { assert (B : match get "time" args with
                    | JStr t => (String_trim E t =? EmptyString)%string
                    | _ => false
                    end = false).
        { destruct (get "time" args) eqn:G; try reflexivity.
          apply String.eqb_neq. now apply Tr. }
        rewrite B. apply Runs_ret. }
      eapply Runs_seq.
      { instantiate (1 := tt).
        destruct (get "time" args); auto with runs.
        destruct (_ <? _); auto with runs. }
      eapply Runs_calls_eq.
      - eapply Runs_bind.
        + pose proof (Runs_addReminder E args (List.length (fetched w))) as H.
          rewrite N in H. cbn [api_outcome] in H. rewrite J in H.
          replace (match responseBody with
                   | JUndefined => _ | JNull => _ | _ => Ok responseBody
                   end) with (Ok responseBody) in H
            by (destruct responseBody; cbn in Nb; congruence).
          exact H.
        + eapply Runs_seq; [| apply Runs_ret].
          unfold with_reminder_hint.
          destruct (falsy (get "ok" responseBody)); [| apply Runs_ret].
          eapply Runs_seq; [apply Runs_Logger_error | apply Runs_ret].
      - reflexivity. }
    exists w'. split; [exact Hw |]. split; [exact Hf | reflexivity].
  - intros responseBody. split; [| split].
    + intros k K. apply with_reminder_hint_other. now apply String.eqb_neq.
    + intros O. unfold with_reminder_hint, falsy. now rewrite O.
    + intros fs -> O. unfold with_reminder_hint, falsy. cbn [get]. rewrite O.
      repeat split; intros Er; rewrite Er; cbn; apply assoc_set_field_same.
Qed.

Lemma reminder_creation_witness :
  let E := scripted [json_response (JObj unparsed_time)] in
  exists w',
    CallToolRequest_handler E
      {| name := "slack_reminders_add"; arguments := monday_reminder |} empty_world
    = (Ok (text_result (with_reminder_hint (JObj unparsed_time))), w') /\
    fetched w' = [reminder_request E monday_reminder] /\
    header "Authorization" (req_headers (reminder_request E monday_reminder))
    = Some (user_Authorization E).
Proof.
  destruct (reminder_creation (scripted [json_response (JObj unparsed_time)])
              monday_reminder empty_world eq_refl eq_refl) as (_ & Hvalid & _).
  apply (Hvalid eq_refl
           (fun t G => ltac:(injection G as <-; discriminate))
           {| status := 200; statusText := "OK"; json := Ok (JObj unparsed_time) |}
           (JObj unparsed_time));
    reflexivity.
Defined.

(* ------------------------------------------------------------------ *)
(** ** The legacy upload *)

Lemma Quiet_uploadFile_form E args :
  exists r,
    (forall n, Runs (uploadFile E args) n (Throw r) []).
Proof.
  unfold uploadFile. cbv zeta.
  assert (Q : Quiet (if truthy (get "channels" args)
                     then joined <- Array_join "args.channels" (get "channels" args) ;;
                          ret (append
                                 (append_if
                                    (append_if
                                       (append_if
                                          (append_if
                                             (append_if [] "content" (get "content" args))
                                             "filename" (get "filename" args))
                                          "filetype" (get "filetype" args))
                                       "title" (get "title" args))
                                    "initial_comment" (get "initial_comment" args))
                                 "channels" (JStr joined))
                     else ret (append_if
                                 (append_if
                                    (append_if
                                       (append_if
                                          (append_if [] "content" (get "content" args))
                                          "filename" (get "filename" args))
                                       "filetype" (get "filetype" args))
                                    "title" (get "title" args))
                                 "initial_comment" (get "initial_comment" args)))).
  { destruct (truthy _); [| apply Quiet_ret].
    apply Quiet_bind; [apply Quiet_Array_join | intros; apply Quiet_ret]. }
  destruct Q as [[formData | e] Hq].
  - eexists. intros n. eapply Runs_seq; [apply Runs_Logger_debug |].
    eapply Runs_seq; [apply Hq |].
    eapply Runs_makeApiRequest_FormData. reflexivity.
  - exists e. intros n. eapply Runs_seq; [apply Runs_Logger_debug |].
    apply Runs_bind_throw, Hq.
Qed.

(** X9. The legacy upload. Whatever its arguments, [uploadFile] throws
    before any call of [fetch] (its FormData body fails the parse made
    for the request log), so the tool slack_files_upload always answers
    with an error result and never sends anything. *)
Theorem legacy_upload_never_sends (E : Env) (args : value) (w : world) :
  (exists e w',
      uploadFile E args w = (Throw e, w') /\ fetched w' = fetched w) /\
  (exists e w',
      CallToolRequest_handler E {| name := "slack_files_upload"; arguments := args |} w
      = (Ok (text_result (error_payload e "slack_files_upload")), w') /\
      fetched w' = fetched w).
Proof.
  destruct (Quiet_uploadFile_form E args) as [e He]. split.
  - destruct (He _ w eq_refl) as (w' & Hw & Hf).
    exists e, w'. split; [exact Hw | now rewrite Hf, app_nil_r].
  - assert (C : exists e', Runs (call_tool E {| name := "slack_files_upload";
                                                arguments := args |})
                             (List.length (fetched w)) (Throw e') []).
    { unfold call_tool. cbn [name arguments].
      destruct (falsy args).
      - eexists. apply Runs_bind_throw, Runs_throw.
      - cbn [throw_if]. pick_case. unfold simple_case.
        destruct (lacks2 "content" "filename" args).
        + eexists. eapply Runs_seq; [apply Runs_ret |].
          apply Runs_bind_throw, Runs_throw.
        + exists e. eapply Runs_seq; [apply Runs_ret |].
          eapply Runs_seq; [apply Runs_ret |].
          apply Runs_bind_throw, He. }
    destruct C as [e' Hc].
    destruct (Runs_CallToolRequest_handler E _ _ _ _ Hc w eq_refl) as (w' & Hw & Hf).
    exists e', w'. split; [exact Hw | now rewrite Hf, app_nil_r].
Qed.

(* ------------------------------------------------------------------ *)
(** ** The protocol of the v2 upload *)

Lemma Runs_calls_made {A} (m : M A) (w : world) r l :
  Runs m (List.length (fetched w)) r l ->
  fst (m w) = r /\ calls_made m w = l.
Proof.
  intros H. destruct (H w eq_refl) as (w' & Hw & Hf).
  unfold calls_made. rewrite Hw. cbn [fst snd]. split; [reflexivity |].
  rewrite Hf, skipn_app, skipn_all, Nat.sub_diag. reflexivity.
Qed.

Lemma Runs_uploadFile_v2_unresolved E args e n :
  (forall n, Runs (resolve_upload_input E args) n (Throw e) []) ->
  Runs (uploadFile_v2 E args) n (Throw e) [].
Proof.
  intros R. unfold uploadFile_v2.
  eapply Runs_seq; [apply Runs_Logger_debug |].
  apply Runs_bind_throw, R.
Qed.

(** The v2 upload on a resolved input: the four ways it can end. *)
Lemma Runs_uploadFile_v2_resolved E args input n :
  (forall n, Runs (resolve_upload_input E args) n (Ok input) []) ->
  exists reserved k r,
    (1 <= k <= 3)%nat /\
    Runs (uploadFile_v2 E args) n r (firstn k (upload_protocol E args input reserved)) /\
    (k = 1%nat ->
     r = api_outcome (net E n (reserve_request E input)) /\
     forall body, r = Ok body -> truthy (get "ok" body) = false) /\
    ((2 <= k)%nat ->
     api_outcome (net E n (reserve_request E input)) = Ok reserved /\
     truthy (get "ok" reserved) = true) /\
    (k = 2%nat ->
     match net E (S n) (transfer_request input reserved) with
     | Rejected e => r = Throw e
     | Resolved answer =>
         Response_ok answer = false /\
         r = Throw (JsError "Error" ("Upload failed: " ++ statusText answer))
     end) /\
    (k = 3%nat ->
     (exists answer,
         net E (S n) (transfer_request input reserved) = Resolved answer /\
         Response_ok answer = true) /\
     r = api_outcome
           (net E (S (S n))
              (finalize_to E (first_element (get "channels" args)) args input reserved))).
Proof.
  intros R.
  pose proof (Runs_getUploadURLExternal E
                (JObj [("filename", in_filename input);
                       ("length", JNum (Buffer_length (in_content input)))]) n) as G.
  cbv zeta in G.
  change (api_request E (api "files.getUploadURLExternal") _ true)
    with (reserve_request E input) in G.
  destruct (api_outcome (net E n (reserve_request E input))) as [reserved | e] eqn:O.
  - destruct (truthy (get "ok" reserved)) eqn:K.
    + destruct (net E (S n) (transfer_request input reserved)) as [e2 | answer] eqn:N2.
      * (* the transfer is rejected *)
        exists reserved, 2%nat, (Throw e2).
        split; [lia |].
        split; [| refine (conj _ (conj _ (conj _ _)));
                  [ intros ?; discriminate
                  | intros _; split; [reflexivity | exact K]
                  | intros _; rewrite N2; reflexivity
                  | intros ?; discriminate ]].
        unfold uploadFile_v2.
        eapply Runs_seq; [apply Runs_Logger_debug |].
        eapply Runs_seq; [apply R |].
        eapply Runs_calls_eq.
        -- eapply Runs_bind; [exact G |].
           unfold falsy. rewrite K. cbn [negb List.length]. rewrite Nat.add_1_r.
           eapply Runs_try_throw.
           ++ apply Runs_bind_throw.
              pose proof (Runs_await_fetch E (transfer_request input reserved) (S n)) as T.
              rewrite N2 in T. exact T.
           ++ eapply Runs_seq; [apply Runs_Logger_error | apply Runs_throw].
        -- reflexivity.
      * destruct (Response_ok answer) eqn:F.
        -- (* the three calls *)
           exists reserved, 3%nat,
             (api_outcome
                (net E (S (S n))
                   (finalize_to E (first_element (get "channels" args)) args input
                      reserved))).
           split; [lia |].
           split; [| refine (conj _ (conj _ (conj _ _)));
                     [ intros ?; discriminate
                     | intros _; split; [reflexivity | exact K]
                     | intros ?; discriminate
                     | intros _; split; [| reflexivity];
                       exists answer; split; [exact N2 | exact F] ]].
           unfold uploadFile_v2.
           eapply Runs_seq; [apply Runs_Logger_debug |].
           eapply Runs_seq; [apply R |].
           eapply Runs_calls_eq.
           ++ eapply Runs_bind; [exact G |].
              unfold falsy. rewrite K. cbn [negb List.length]. rewrite Nat.add_1_r.
              apply Runs_try_rethrow;
                [| intros e k; eapply Runs_seq;
                   [apply Runs_Logger_error | apply Runs_throw]].
              eapply Runs_bind.
              ** pose proof (Runs_await_fetch E (transfer_request input reserved) (S n)) as T.
                 rewrite N2 in T. exact T.
              ** rewrite F. cbn [negb List.length]. rewrite Nat.add_1_r.
                 eapply Runs_seq; [apply Runs_ret |].
                 apply Runs_bind_ret.
                 exact (Runs_completeUploadExternal E _ _).
           ++ reflexivity.
        -- (* the transfer is refused *)
           exists reserved, 2%nat,
             (Throw (JsError "Error" ("Upload failed: " ++ statusText answer))).
           split; [lia |].
           split; [| refine (conj _ (conj _ (conj _ _)));
                     [ intros ?; discriminate
                     | intros _; split; [reflexivity | exact K]
                     | intros _; rewrite N2; split; [exact F | reflexivity]
                     | intros ?; discriminate ]].
           unfold uploadFile_v2.
           eapply Runs_seq; [apply Runs_Logger_debug |].
           eapply Runs_seq; [apply R |].
           eapply Runs_calls_eq.
           ++ eapply Runs_bind; [exact G |].
              unfold falsy. rewrite K. cbn [negb List.length]. rewrite Nat.add_1_r.
              eapply Runs_try_throw.
              ** eapply Runs_bind.
                 --- pose proof (Runs_await_fetch E (transfer_request input reserved) (S n))
                       as T.
                     rewrite N2 in T. exact T.
                 --- apply Runs_bind_throw. rewrite F. apply Runs_throw.
              ** eapply Runs_seq; [apply Runs_Logger_error | apply Runs_throw].
           ++ reflexivity.
    + (* the reserve call is answered with a failure *)
      exists reserved, 1%nat, (Ok reserved).
      split; [lia |].
      split; [| refine (conj _ (conj _ (conj _ _)));
                [ intros _; split; [reflexivity | intros body [= <-]; exact K]
                | intros ?; exfalso; lia
                | intros ?; discriminate
                | intros ?; discriminate ]].
      unfold uploadFile_v2.
      eapply Runs_seq; [apply Runs_Logger_debug |].
      eapply Runs_seq; [apply R |].
      eapply Runs_calls_eq.
      * eapply Runs_bind; [exact G |].
        unfold falsy. rewrite K. cbn [negb].
        eapply Runs_seq; [apply Runs_Logger_error | apply Runs_ret].
      * reflexivity.
  - (* the reserve call fails *)
    exists JUndefined, 1%nat, (Throw e).
    split; [lia |].
    split; [| refine (conj _ (conj _ (conj _ _)));
              [ intros _; split; [reflexivity | intros body ?; discriminate]
              | intros ?; exfalso; lia
              | intros ?; discriminate
              | intros ?; discriminate ]].
    unfold uploadFile_v2.
    eapply Runs_seq; [apply Runs_Logger_debug |].
    eapply Runs_seq; [apply R |].
    apply Runs_bind_throw. exact G.
Qed.

(** X10. The protocol of the v2 upload, for every input and every
    behaviour of the remote side.
    (a) When the input cannot be resolved, the upload throws the error of
        the resolution and makes no call.
    (b) Otherwise its calls are the first [k] of reserve, transfer and
        finalize, in this order, for some [k] from 1 to 3: no transfer
        without a reserve call answered [ok], no finalize call without a
        transfer the remote side accepted.
    (c) With one call, the result is what the gateway makes of the answer
        to the reserve call, and a body it returns has a falsy [ok].
    (d) With two calls, the upload throws: the rejection of the transfer,
        or [Upload failed:] with the status text.
    (e) With three calls, the result is what the gateway makes of the
        answer to the finalize call, whatever its [ok] field says. *)
Theorem upload_v2_follows_the_protocol (E : Env) (args : value) (w : world) :
  match fst (resolve_upload_input E args w) with
  | Throw e =>
      fst (uploadFile_v2 E args w) = Throw e /\
      calls_made (uploadFile_v2 E args) w = []
  | Ok input =>
      exists reserved k,
        (1 <= k <= 3)%nat /\
        calls_made (uploadFile_v2 E args) w
        = firstn k (upload_protocol E args input reserved) /\
        (k = 1%nat ->
         fst (uploadFile_v2 E args w)
         = api_outcome (net E (List.length (fetched w)) (reserve_request E input)) /\
         forall body, fst (uploadFile_v2 E args w) = Ok body ->
                      truthy (get "ok" body) = false) /\
        ((2 <= k)%nat ->
         api_outcome (net E (List.length (fetched w)) (reserve_request E input))
         = Ok reserved /\
         truthy (get "ok" reserved) = true) /\
        (k = 2%nat ->
         match net E (S (List.length (fetched w))) (transfer_request input reserved) with
         | Rejected e => fst (uploadFile_v2 E args w) = Throw e
         | Resolved answer =>
             Response_ok answer = false /\
             fst (uploadFile_v2 E args w)
             = Throw (JsError "Error" ("Upload failed: " ++ statusText answer))
         end) /\
        (k = 3%nat ->
         (exists answer,
             net E (S (List.length (fetched w))) (transfer_request input reserved)
             = Resolved answer /\
             Response_ok answer = true) /\
         fst (uploadFile_v2 E args w)
         = api_outcome
             (net E (S (S (List.length (fetched w))))
                (finalize_to E (first_element (get "channels" args)) args input
                   reserved)))
  end.
Proof.
  destruct (fst (resolve_upload_input E args w)) as [input | e] eqn:R.
  - destruct (Runs_uploadFile_v2_resolved E args input (List.length (fetched w))
                (resolve_upload_input_from _ _ _ _ R))
      as (reserved & k & r & Hk & Hr & H1 & H2 & H3 & H4).
    destruct (Runs_calls_made _ _ _ _ Hr) as [Hres Hcalls].
    exists reserved, k. rewrite Hres.
    split; [exact Hk |]. split; [exact Hcalls |].
    split; [exact H1 |]. split; [exact H2 |]. split; [exact H3 | exact H4].
  - apply Runs_calls_made, Runs_uploadFile_v2_unresolved.
    now apply (resolve_upload_input_from _ _ w).
Qed.



(* ------------------------------------------------------------------ *)
(** ** An unset user token *)

Lemma elevated_direct_methods_call_once E method args n :
  In method elevated_direct_methods ->
  exists req r, Runs (method E args) n r [req].
Proof.
  intros I. cbn in I.
  repeat (destruct I as [<- | I];
          [ eexists _, _;
            (eapply Runs_seq; [apply Runs_Logger_debug |]);
            apply Runs_makeApiRequest; discriminate
          | ]).
  destruct I.
Qed.



(* ------------------------------------------------------------------ *)
(** ** Page sizes *)

Lemma Runs_getChannels E limit cursor n :
  let params :=
    append_if [("types", "public_channel,private_channel");
               ("exclude_archived", "true");
               ("limit", Number_toString (Math_min E (default (JNum 100) limit) 200));
               ("team_id", SLACK_TEAM_ID E)] "cursor" cursor in
  let req := api_request E (with_query "conversations.list" params) GET false in
  Runs (getChannels E limit cursor) n (api_outcome (net E n req)) [req].
Proof.
  intros params req. unfold getChannels. cbv zeta.
  eapply Runs_seq; [apply Runs_Logger_debug |].
  apply Runs_makeApiRequest. discriminate.
Qed.

Lemma Runs_getUsers E limit cursor n :
  let params :=
    append_if [("limit", Number_toString (Math_min E (default (JNum 100) limit) 200));
               ("team_id", SLACK_TEAM_ID E)] "cursor" cursor in
  let req := api_request E (with_query "users.list" params) GET false in
  Runs (getUsers E limit cursor) n (api_outcome (net E n req)) [req].
Proof.
  intros params req. unfold getUsers. cbv zeta.
  eapply Runs_seq; [apply Runs_Logger_debug |].
  eapply Runs_calls_eq.
  - eapply Runs_bind.
    + unfold makeApiRequest_async. apply Runs_async_ok.
      eapply Runs_seq; [apply Runs_ret |].
      eapply Runs_seq; [apply Runs_Logger_apiRequest |].
      eapply Runs_calls_eq;
        [eapply Runs_bind; [apply Runs_fetch | apply Runs_ret] | reflexivity].
    + eapply Runs_seq; [apply Runs_Logger_debug |].
      apply Runs_api_promise.
  - reflexivity.
Qed.

Lemma Runs_simple_tool E tool args missing message call n r l :
  find_case tool (cases E) = Some (simple_case missing message call) ->
  truthy args = true ->
  missing args = false ->
  Runs (call args) n r l ->
  Runs (CallToolRequest_handler E {| name := tool; arguments := args |}) n
    (handled {| name := tool; arguments := args |} (wrapped r)) l.
Proof.
  intros F T C R.
  apply Runs_CallToolRequest_handler. unfold call_tool. cbn [name arguments].
  unfold falsy. rewrite T. cbn [negb throw_if].
  eapply Runs_seq; [apply Runs_ret |]. rewrite F. unfold simple_case.
  rewrite C. cbn [throw_if].
  eapply Runs_seq; [apply Runs_ret |].
  destruct r as [response | e]; cbn [wrapped].
  - eapply Runs_calls_eq; [eapply Runs_bind; [exact R | apply Runs_ret] |].
    apply app_nil_r.
  - apply Runs_bind_throw, R.
Qed.

Lemma limit_is_append_if text params cursor :
  limit_is text params -> limit_is text (append_if params "cursor" cursor).
Proof.
  intros [I U]. unfold append_if, append.
  destruct (truthy cursor); [| now split].
  split.
  - apply in_or_app. now left.
  - intros other H. apply in_app_or in H. destruct H as [H | [H | []]].
    + now apply U.
    + discriminate H.
Qed.



(* ------------------------------------------------------------------ *)
(** ** The parameters of a search *)

Lemma has_param_append_if k params k' v :
  has_param k (append_if params k' v)
  <-> has_param k params \/ (k = k' /\ truthy v = true).
Proof.
  unfold has_param, append_if, append. destruct (truthy v).
  - split.
    + intros [x H]. apply in_app_or in H. destruct H as [H | [[= <- _] | []]].
      * left. now exists x.
      * right. now split.
    + intros [[x H] | [-> _]].
      * exists x. apply in_or_app. now left.
      * eexists. apply in_or_app. right. now left.
  - split; [now left | intros [H | [_ H]]; [exact H | discriminate H]].
Qed.

Lemma has_param_append k params k' v :
  has_param k (append params k' v) <-> has_param k params \/ k = k'.
Proof.
  unfold has_param, append. split.
  - intros [x H]. apply in_app_or in H. destruct H as [H | [[= <- _] | []]].
    + left. now exists x.
    + now right.
  - intros [[x H] | ->].
    + exists x. apply in_or_app. now left.
    + eexists. apply in_or_app. right. now left.
Qed.

Lemma has_param_query k v : has_param k [("query", v)] <-> k = "query".
Proof.
  unfold has_param. split.
  - now intros [x [[= <- _] | []]].
  - intros ->. exists v. now left.
Qed.

Lemma hd_append_if params k v first :
  hd_error params = Some first -> hd_error (append_if params k v) = Some first.
Proof.
  unfold append_if, append. destruct (truthy v); [| easy].
  destruct params; [discriminate | easy].
Qed.

(** The query of a search whose [highlight] is not [null]. *)
Lemma search_params_value args :
  get "highlight" args <> JNull ->
  exists params,
    search_params args = ret params /\
    hd_error params = Some ("query", ToString (get "query" args)) /\
    (forall k, In k ["sort"; "sort_dir"; "count"; "page"] ->
               has_param k params <-> truthy (get k args) = true) /\
    (has_param "highlight" params <-> get "highlight" args <> JUndefined).
Proof.
  intros NN. unfold search_params.
  set (base := append_if
                 (append_if [("query", ToString (get "query" args))]
                    "sort" (get "sort" args))
                 "sort_dir" (get "sort_dir" args)).
  assert (Hb : forall k, has_param k base
                         <-> k = "query" \/ (k = "sort" /\ truthy (get "sort" args) = true)
                             \/ (k = "sort_dir" /\ truthy (get "sort_dir" args) = true)).
  { intros k. unfold base.
    rewrite !has_param_append_if, has_param_query. tauto. }
  assert (Hh : hd_error base = Some ("query", ToString (get "query" args)))
    by (unfold base; now repeat apply hd_append_if).
  assert (S : forall mid,
             hd_error mid = Some ("query", ToString (get "query" args)) ->
             (forall k, has_param k mid
                        <-> has_param k base
                            \/ (k = "highlight" /\ get "highlight" args <> JUndefined)) ->
             let params := append_if (append_if mid "count" (get "count" args))
                             "page" (get "page" args) in
             hd_error params = Some ("query", ToString (get "query" args)) /\
             (forall k, In k ["sort"; "sort_dir"; "count"; "page"] ->
                        has_param k params <-> truthy (get k args) = true) /\
             (has_param "highlight" params <-> get "highlight" args <> JUndefined)).
  { intros mid Hm Hk params. split; [| split].
    - unfold params. now repeat apply hd_append_if.
    - intros k I. unfold params.
      rewrite !has_param_append_if, Hk, Hb.
      cbn in I.
      destruct I as [<- | [<- | [<- | [<- | []]]]];
        (split; [intros H; repeat destruct H as [H | H];
                 try discriminate H; try (destruct H as [H ?]; try discriminate H);
                 assumption
                | intros H; tauto]).
    - unfold params. rewrite !has_param_append_if, Hk, Hb.
      split.
      + intros H. repeat destruct H as [H | H];
          try discriminate H; destruct H as [H ?]; try discriminate H; assumption.
      + intros H. tauto. }
  assert (D : get "highlight" args = JUndefined \/
              (get "highlight" args <> JUndefined /\
               negb (is_undefined (get "highlight" args)) = true /\
               toString (get "highlight" args)
               = ret (ToString (get "highlight" args)))).
  { destruct (get "highlight" args);
      first [ left; reflexivity
            | congruence
            | right; split; [discriminate | split; reflexivity] ]. }
  destruct D as [U | (NU & Iu & Ts)].
  - eexists. split; [rewrite U; reflexivity |].
    refine (S base Hh _). intros k. split; [now left |].
    intros [H | [_ H]]; [exact H | congruence].
  - eexists. split; [rewrite Iu, Ts; reflexivity |].
    refine (S _ _ _).
    + unfold append. destruct base; [discriminate Hh | exact Hh].
    + intros k. rewrite has_param_append. split.
      * intros [H | H]; [now left | right; now split].
      * intros [H | [H _]]; [now left | now right].
Qed.


